(** * TerminalChess-Client: notation normalizer, board renderer, protocol reader

    A shallow embedding of [client_local.py].  Python [str] values are
    modelled as [string]; the model is exact for ASCII text (the character
    classes of [str.split], [str.strip], [str.islower], [str.upper],
    [str.lower] and [int] are those of the ASCII range), and the unicode
    glyphs of [UNICODE_MAP] appear only in output, as their UTF-8 bytes.
    Python exceptions are explicit: a fallible operation returns [res]. *)

From Stdlib Require Import String Ascii List ZArith Lia Bool.
Import ListNotations.
Open Scope string_scope.
Open Scope Z_scope.

(** ** Exceptions *)

Module Py.

Inductive exn : Type := IndexError | ValueError.

Inductive res (A : Type) : Type :=
| Ok (a : A)
| Raise (e : exn).

Arguments Ok {A} a.
Arguments Raise {A} e.

Definition bind {A B : Type} (m : res A) (k : A -> res B) : res B :=
  match m with
  | Ok a => k a
  | Raise e => Raise e
  end.

(** Python's short-circuit [and] over conditions that may raise. *)
Definition andM (m1 m2 : res bool) : res bool :=
  bind m1 (fun b => if b then m2 else Ok false).

Declare Scope py_scope.
Delimit Scope py_scope with py.
Notation "x <- m ;; k" := (bind m (fun x => k))
  (at level 61, m at next level, right associativity) : py_scope.
Notation "m1 &&& m2" := (andM m1 m2)
  (at level 40, left associativity) : py_scope.
Open Scope py_scope.

(** ** Characters *)

Definition code (c : ascii) : Z := Z.of_nat (nat_of_ascii c).

(** [c in set] for a one-character string [c]. *)
Fixpoint char_in (c : ascii) (set : string) : bool :=
  match set with
  | EmptyString => false
  | String d set' => Ascii.eqb c d || char_in c set'
  end.

(** [str.isspace] on ASCII: TAB, LF, VT, FF, CR, FS, GS, RS, US, SPACE. *)
Definition isspace (c : ascii) : bool :=
  let n := code c in
  ((9 <=? n) && (n <=? 13)) || ((28 <=? n) && (n <=? 32)).

Definition is_upper_char (c : ascii) : bool :=
  let n := code c in (65 <=? n) && (n <=? 90).

Definition is_lower_char (c : ascii) : bool :=
  let n := code c in (97 <=? n) && (n <=? 122).

Definition is_digit_char (c : ascii) : bool :=
  let n := code c in (48 <=? n) && (n <=? 57).

Definition upper_char (c : ascii) : ascii :=
  if is_lower_char c then ascii_of_nat (nat_of_ascii c - 32) else c.

Definition lower_char (c : ascii) : ascii :=
  if is_upper_char c then ascii_of_nat (nat_of_ascii c + 32) else c.

(** ** Strings *)

Definition len (s : string) : Z := Z.of_nat (String.length s).

Definition is_empty (s : string) : bool :=
  match s with EmptyString => true | _ => false end.

Fixpoint map_chars (f : ascii -> ascii) (s : string) : string :=
  match s with
  | EmptyString => EmptyString
  | String c s' => String (f c) (map_chars f s')
  end.

Definition upper : string -> string := map_chars upper_char.
Definition lower : string -> string := map_chars lower_char.

(** [s[i]], with Python's negative indices; [IndexError] out of range. *)
Definition getitem (s : string) (i : Z) : res ascii :=
  let j := if i <? 0 then i + len s else i in
  if j <? 0 then Raise IndexError
  else match String.get (Z.to_nat j) s with
       | Some c => Ok c
       | None => Raise IndexError
       end.

(** [s[i] in set], the index evaluated first. *)
Definition item_in (s : string) (i : Z) (set : string) : res bool :=
  c <- getitem s i ;; Ok (char_in c set).

Fixpoint drop (n : nat) (s : string) : string :=
  match n, s with
  | O, _ => s
  | S n', String _ s' => drop n' s'
  | S _, EmptyString => EmptyString
  end.

Fixpoint take (n : nat) (s : string) : string :=
  match n, s with
  | O, _ => EmptyString
  | S n', String c s' => String c (take n' s')
  | S _, EmptyString => EmptyString
  end.

(** [s[i:]] for [i >= 0]. *)
Definition slice_from (s : string) (i : nat) : string := drop i s.

(** [s[:-k]] and [s[-k:]] for [k > 0]. *)
Definition slice_to_neg (s : string) (k : nat) : string :=
  take (String.length s - k) s.
Definition slice_from_neg (s : string) (k : nat) : string :=
  drop (String.length s - k) s.

Fixpoint lstrip_by (p : ascii -> bool) (s : string) : string :=
  match s with
  | EmptyString => EmptyString
  | String c s' => if p c then lstrip_by p s' else s
  end.

Fixpoint rstrip_by (p : ascii -> bool) (s : string) : string :=
  match s with
  | EmptyString => EmptyString
  | String c s' =>
      let r := rstrip_by p s' in
      if p c && is_empty r then EmptyString else String c r
  end.

(** [s.strip()] *)
Definition strip (s : string) : string := rstrip_by isspace (lstrip_by isspace s).

(** [s.rstrip(chars)] *)
Definition rstrip (s chars : string) : string :=
  rstrip_by (fun c => char_in c chars) s.

(** [s.startswith(p)] *)
Fixpoint startswith (s p : string) : bool :=
  match p, s with
  | EmptyString, _ => true
  | String a p', String b s' => Ascii.eqb a b && startswith s' p'
  | String _ _, EmptyString => false
  end.

(** [s.replace(c, '')] for a one-character [c]. *)
Fixpoint remove_char (c : ascii) (s : string) : string :=
  match s with
  | EmptyString => EmptyString
  | String d s' => if Ascii.eqb d c then remove_char c s' else String d (remove_char c s')
  end.

(** [s.replace(ab, '')] for a two-character [ab]: occurrences are removed
    left to right, without overlap. *)
Fixpoint remove_pair (a b : ascii) (s : string) : string :=
  match s with
  | String d ((String e s'') as s') =>
      if Ascii.eqb d a && Ascii.eqb e b then remove_pair a b s''
      else String d (remove_pair a b s')
  | _ => s
  end.

(** [s.split()]: maximal runs of non-whitespace characters. *)
Fixpoint split_go (s cur : string) : list string :=
  match s with
  | EmptyString => if is_empty cur then [] else [cur]
  | String c s' =>
      if isspace c
      then (if is_empty cur then split_go s' "" else cur :: split_go s' "")
      else split_go s' (cur ++ String c "")
  end.

Definition split (s : string) : list string := split_go s "".

(** [s.split(" ", 1)[1]]: the text after the first space. *)
Fixpoint split1_snd (s : string) : res string :=
  match s with
  | EmptyString => Raise IndexError
  | String c s' => if Ascii.eqb c " " then Ok s' else split1_snd s'
  end.

(** [sep.join(l)] *)
Definition join (sep : string) (l : list string) : string := String.concat sep l.

(** [str.islower]: some cased character, and no uppercase one. *)
Fixpoint any_char (p : ascii -> bool) (s : string) : bool :=
  match s with
  | EmptyString => false
  | String c s' => p c || any_char p s'
  end.

Definition islower (s : string) : bool :=
  any_char is_lower_char s && negb (any_char is_upper_char s).

(** [int(s)] in base 10: surrounding whitespace, an optional sign, then
    digits, single underscores allowed between digits; [ValueError]
    otherwise.  (The interpreter's limit on the number of digits is not
    modelled.) *)
Fixpoint int_digits (s : string) (acc : Z) (after_digit : bool) : option Z :=
  match s with
  | EmptyString => if after_digit then Some acc else None
  | String c s' =>
      if is_digit_char c then int_digits s' (10 * acc + (code c - 48)) true
      else if Ascii.eqb c "_" && after_digit then int_digits s' acc false
      else None
  end.

Definition int (s : string) : res Z :=
  let t := strip s in
  let '(sign, digits) :=
    match t with
    | String c t' =>
        if Ascii.eqb c "-" then (-1, t')
        else if Ascii.eqb c "+" then (1, t')
        else (1, t)
    | EmptyString => (1, t)
    end in
  match int_digits digits 0 false with
  | Some n => Ok (sign * n)
  | None => Raise ValueError
  end.

End Py.

Import Py.
Open Scope py_scope.

(** ** NotationNormalizer: [parse_algebraic] *)

Definition files : string := "abcdefgh".
Definition ranks : string := "12345678".

(** Keys of the [piece_chars] dictionary. *)
Definition piece_chars : string := "KQRBN".

(** The chain of [replace] calls removing capture, check, mate and
    promotion marks. *)
Definition remove_marks (s : string) : string :=
  remove_pair "=" "N"
    (remove_pair "=" "B"
      (remove_pair "=" "R"
        (remove_pair "=" "Q"
          (remove_char "#" (remove_char "+" (remove_char "x" s)))))).

Definition start_rank (dest_rank : ascii) : ascii :=
  if char_in dest_rank "34" then "2"%char
  else if char_in dest_rank "56" then "7"%char
  else "2"%char.

(** The test of the first [if] (line 34): text already in coordinate
    notation. *)
Definition is_coordinate (move_str : string) : res bool :=
  Ok (4 <=? len move_str) &&& item_in move_str 0 files
    &&& item_in move_str 1 ranks &&& item_in move_str 2 files.

(** The pawn and piece rules (lines 41-66), on the text left once the marks
    are removed.  [None] is Python's [None] (unparseable); indexing an
    empty text raises [IndexError]. *)
Definition parse_unmarked (move_str : string) : res (option string) :=
  pawn <- Ok (len move_str =? 2) &&& item_in move_str 0 files
            &&& item_in move_str 1 ranks ;;
  if pawn then
    file <- getitem move_str 0 ;;
    dest_rank <- getitem move_str 1 ;;
    Ok (Some (String file (String (start_rank dest_rank)
                (String file (String dest_rank "")))))
  else
  c0 <- getitem move_str 0 ;;
  if char_in (upper_char c0) piece_chars then
    let rest := slice_from move_str 1 in
    has_dest <- Ok (2 <=? len rest) &&& item_in rest (-2) files
                  &&& item_in rest (-1) ranks ;;
    if has_dest then
      let dest := slice_from_neg rest 2 in
      let disambig := if 2 <? len rest then slice_to_neg rest 2 else "" in
      full <- Ok (len disambig =? 2) &&& item_in disambig 0 files
                &&& item_in disambig 1 ranks ;;
      if full then Ok (Some (disambig ++ dest)) else Ok None
    else Ok None
  else Ok None.

(** [parse_algebraic] (lines 26-66). *)
Definition parse_algebraic (move_str : string) : res (option string) :=
  let move_str := strip move_str in
  if is_empty move_str then Ok None else
  coord <- is_coordinate move_str ;;
  if coord then Ok (Some move_str) else
  parse_unmarked (remove_marks move_str).

(** ** Terminal colours

    [Fore], [Back] and [Style] come from colorama when it can be imported
    (its constants are the ANSI sequences ESC [ n m) and from the [Dummy]
    fallback class, whose every attribute is the empty string, otherwise. *)

Record Palette : Type := {
  Back_BLUE : string;
  Back_WHITE : string;
  Fore_BLACK : string;
  Fore_RED : string;
  Fore_GREEN : string;
  Fore_YELLOW : string;
  Fore_MAGENTA : string;
  Fore_CYAN : string;
  Style_RESET_ALL : string
}.

Definition ESC : ascii := ascii_of_nat 27.
Definition NL : string := String (ascii_of_nat 10) "".

Definition csi (n : string) : string := String ESC ("[" ++ n ++ "m").

Definition colorama : Palette := {|
  Back_BLUE := csi "44";
  Back_WHITE := csi "47";
  Fore_BLACK := csi "30";
  Fore_RED := csi "31";
  Fore_GREEN := csi "32";
  Fore_YELLOW := csi "33";
  Fore_MAGENTA := csi "35";
  Fore_CYAN := csi "36";
  Style_RESET_ALL := csi "0"
|}.

Definition Dummy : Palette := {|
  Back_BLUE := "";
  Back_WHITE := "";
  Fore_BLACK := "";
  Fore_RED := "";
  Fore_GREEN := "";
  Fore_YELLOW := "";
  Fore_MAGENTA := "";
  Fore_CYAN := "";
  Style_RESET_ALL := ""
|}.

(** [True] when the text holds the escape character that opens every
    colour-control sequence. *)
Definition has_escape (s : string) : bool := any_char (Ascii.eqb ESC) s.

(** ** BoardRenderer: [render_board] *)

Definition UNICODE_MAP : list (string * string) :=
  [ ("P", "♙"); ("R", "♖"); ("N", "♘"); ("B", "♗"); ("Q", "♕"); ("K", "♔");
    ("p", "♟"); ("r", "♜"); ("n", "♞"); ("b", "♝"); ("q", "♛"); ("k", "♚") ].

Fixpoint dict_get (d : list (string * string)) (key : string) : option string :=
  match d with
  | [] => None
  | (k, v) :: d' => if String.eqb key k then Some v else dict_get d' key
  end.

(** [l[i]] on a list, with Python's negative indices. *)
Definition list_getitem {A : Type} (l : list A) (i : Z) : res A :=
  let j := if i <? 0 then i + Z.of_nat (length l) else i in
  if j <? 0 then Raise IndexError
  else match nth_error l (Z.to_nat j) with
       | Some a => Ok a
       | None => Raise IndexError
       end.

Fixpoint enumerate_from {A : Type} (i : Z) (l : list A) : list (Z * A) :=
  match l with
  | [] => []
  | a :: l' => (i, a) :: enumerate_from (i + 1) l'
  end.

Definition enumerate {A : Type} (l : list A) : list (Z * A) := enumerate_from 0 l.

(** A [for] loop that appends one result per element and stops at the
    first exception. *)
Fixpoint mapM {A B : Type} (f : A -> res B) (l : list A) : res (list B) :=
  match l with
  | [] => Ok []
  | a :: l' => b <- f a ;; bs <- mapM f l' ;; Ok (b :: bs)
  end.

(** [try: rank_num = int(rank) except ValueError: rank_num = 0] *)
Definition rank_number (rank : string) : res Z :=
  match int rank with
  | Raise ValueError => Ok 0
  | r => r
  end.

Definition actual_file (flip : bool) (file_index : Z) : Z :=
  if flip then 7 - file_index else file_index.

Definition dark (flip : bool) (file_index rank_num : Z) : bool :=
  (actual_file flip file_index + rank_num) mod 2 =? 1.

Definition default_labels : string := "  a b c d e f g h".
Definition flipped_labels : string := "  h g f e d c b a".

Section Renderer.

Variable pal : Palette.
Variables use_unicode colorize flip : bool.

(** [Back.BLUE if dark else Back.WHITE if colorize else ''] (line 107) *)
Definition cell_bg (is_dark : bool) : string :=
  if is_dark then Back_BLUE pal else if colorize then Back_WHITE pal else "".

(** Line 108. *)
Definition cell_fg (piece : string) : string :=
  if islower piece then Fore_YELLOW pal
  else if negb (String.eqb piece ".") then Fore_BLACK pal
  else Fore_GREEN pal.

(** Lines 109-113: the glyph when unicode is on and the piece is a key of
    [UNICODE_MAP]; otherwise a blank for [.] and the piece itself for
    anything else. *)
Definition cell_symbol (piece : string) : string :=
  match (if use_unicode then dict_get UNICODE_MAP piece else None) with
  | Some glyph => glyph
  | None => if String.eqb piece "." then " " else piece
  end.

(** The f-string building [cell], for a square known to be dark or not. *)
Definition cell_text (is_dark : bool) (piece : string) : string :=
  let bg := cell_bg is_dark in
  let fg := cell_fg piece in
  let symbol := cell_symbol piece in
  if colorize
  then bg ++ fg ++ " " ++ symbol ++ " "
          ++ (if colorize then Style_RESET_ALL pal else "")
  else " " ++ symbol ++ " ".

(** Body of the loop over [enumerate(pieces)]. *)
Definition render_cell (rank : string) (ip : Z * string) : res string :=
  let '(file_index, piece) := ip in
  rank_num <- rank_number rank ;;
  Ok (cell_text (dark flip file_index rank_num) piece).

(** Body of the loop over [board_rows]: the line appended to [out_lines]. *)
Definition render_row (raw : string) : res string :=
  let parts := split raw in
  if Z.of_nat (length parts) <? 9 then Ok raw else
  rank <- list_getitem parts 0 ;;
  let pieces := tl parts in
  let pieces := if flip then rev pieces else pieces in
  rendered_row <- mapM (render_cell rank) (enumerate pieces) ;;
  Ok (rank ++ " " ++ join "" rendered_row).

(** The rows the loop runs over (lines 76 and 80-81). *)
Definition board_rows_of (ascii_lines : list string) : list string :=
  let board_rows :=
    if (length ascii_lines =? 9)%nat then removelast ascii_lines else ascii_lines in
  if flip then rev board_rows else board_rows.

(** [out_lines] at the end of [render_board]. *)
Definition render_lines (ascii_lines : list string) : res (list string) :=
  let board_rows := board_rows_of ascii_lines in
  file_labels <- (if (length ascii_lines =? 9)%nat
                  then list_getitem ascii_lines (-1)
                  else Ok default_labels) ;;
  out_lines <- mapM render_row board_rows ;;
  Ok (out_lines ++
      [if flip then flipped_labels
       else if negb (is_empty (strip file_labels)) then file_labels
       else default_labels])%list.

(** [render_board] (lines 68-124). *)
Definition render_board (ascii_lines : list string) : res string :=
  out_lines <- render_lines ascii_lines ;;
  Ok (join NL out_lines).

End Renderer.

(** ** SessionState and the two loops

    [state] is the dictionary shared by the reader thread and the command
    loop: ['last_board'] and ['ascii_only'] are always present,
    ['player_color'] is absent ([None]) until a START line stores it. *)

Record State : Type := mkState {
  player_color : option string;
  last_board : option string;
  ascii_only : bool
}.

(** [state = {'last_board': None, 'ascii_only': False}] *)
Definition initial_state : State :=
  {| player_color := None; last_board := None; ascii_only := false |}.

(** What the client does to the outside: [print], the screen clear, and a
    line written to the socket. *)
Inductive Output : Type :=
| Print (text : string)
| ClearScreen
| Send (data : string).

(** [inbound] holds the raw lines that [sock_file.readline()] will return,
    terminators included, none of them empty; past its end [readline]
    returns the empty string, the connection closed.  A stream that ends
    with [readline()] raising instead is the matter of [reader_pass]. *)
Record Session : Type := mkSession {
  inbound : list string;
  state : State;
  stop_event : bool;
  trace : list Output
}.

Definition readline (inbound : list string) : string * list string :=
  match inbound with
  | [] => ("", [])
  | l :: rest => (l, rest)
  end.

Definition NLCR : string := String (ascii_of_nat 10) (String (ascii_of_nat 13) "").

(** The [for _ in range(9)] loop filling [board_lines]. *)
Fixpoint read_frame (n : nat) (inbound board_lines : list string)
  : list string * list string :=
  match n with
  | O => (board_lines, inbound)
  | S n' =>
      let '(l, rest) := readline inbound in
      if is_empty l then (board_lines, rest)
      else read_frame n' rest (board_lines ++ [rstrip l NLCR])
  end.

(** [state.get('player_color') == 'BLACK'] *)
Definition flip_of (st : State) : bool :=
  match player_color st with
  | Some c => String.eqb c "BLACK"
  | None => false
  end.

(** Truth value of [state['last_board']]. *)
Definition has_board (st : State) : bool :=
  match last_board st with
  | Some b => negb (is_empty b)
  | None => false
  end.

Definition board_text (st : State) : string :=
  match last_board st with
  | Some b => b
  | None => ""
  end.

Definition exn_text (e : exn) : string :=
  match e with
  | IndexError => "list index out of range"
  | ValueError => "invalid literal for int() with base 10"
  end.

Section Client.

Variable pal : Palette.

Definition tint (colour text : string) : string :=
  colour ++ text ++ Style_RESET_ALL pal.

(** [print(a, b)] *)
Definition Print2 (a b : string) : Output := Print (a ++ " " ++ b).

Definition emit (w : Session) (rest : list string) (outs : list Output) : Session :=
  {| inbound := rest; state := state w; stop_event := stop_event w;
     trace := trace w ++ outs |}.

(** One pass through the body of the [while] loop of [read_loop]
    (lines 131-193). *)
Definition read_body (w : Session) : res Session :=
  let st := state w in
  let '(line, rest) := readline (inbound w) in
  if is_empty line then
    Ok {| inbound := rest; state := st; stop_event := true;
          trace := trace w ++
                   [Print (tint (Fore_YELLOW pal) "[connection closed by server]")] |}
  else
  let line := rstrip line NLCR in
  if String.eqb line "BOARD" then
    let '(board_lines, rest) := read_frame 9 rest [] in
    let flip := flip_of st in
    rendered <- (if ascii_only st then Ok (join NL board_lines)
                 else render_board pal true true flip board_lines) ;;
    Ok {| inbound := rest;
          state := {| player_color := player_color st;
                      last_board := Some rendered;
                      ascii_only := ascii_only st |};
          stop_event := stop_event w;
          trace := trace w ++ [ClearScreen; Print rendered] |}
  else if startswith line "ROOM " then
    key <- split1_snd line ;;
    Ok (emit w rest
          [Print (tint (Fore_CYAN pal) (NL ++ "[room created]"));
           Print (tint (Fore_CYAN pal) ("  key: " ++ key));
           Print (tint (Fore_CYAN pal)
                    ("  share with: python3 client.py --name <yourname> --room "
                     ++ key ++ NL))])
  else if startswith line "QUEUE " then
    Ok (emit w rest [Print2 (tint (Fore_YELLOW pal) "[queued]") (slice_from line 6)])
  else if startswith line "ROOM_EXPIRED " then
    key <- split1_snd line ;;
    Ok (emit w rest [Print (tint (Fore_YELLOW pal) ("[room expired] " ++ key))])
  else if startswith line "CANCELLED " then
    key <- split1_snd line ;;
    Ok (emit w rest [Print (tint (Fore_YELLOW pal) ("[room cancelled] " ++ key))])
  else if startswith line "START " then
    let parts := split line in
    color <- (if 2 <=? Z.of_nat (length parts)
              then c <- list_getitem parts 1 ;; Ok (Some (upper c))
              else Ok (player_color st)) ;;
    Ok {| inbound := rest;
          state := {| player_color := color;
                      last_board := last_board st;
                      ascii_only := ascii_only st |};
          stop_event := stop_event w;
          trace := trace w ++ [Print2 (tint (Fore_CYAN pal) "[match started]") line] |}
  else if String.eqb line "YOURMOVE" then
    Ok (emit w rest [Print (tint (Fore_GREEN pal) "[your move]")])
  else if startswith line "OPPONENT_MOVE " then
    Ok (emit w rest [Print2 (tint (Fore_MAGENTA pal) "[opponent]") (slice_from line 14)])
  else if startswith line "ERROR " then
    Ok (emit w rest [Print2 (tint (Fore_RED pal) "[error]") (slice_from line 6)])
  else if startswith line "END " then
    Ok (emit w rest [Print2 (tint (Fore_YELLOW pal) "[game ended]") (slice_from line 4)])
  else
    Ok (emit w rest [Print line]).

(** What the [except Exception] handler prints for an exception whose text
    is [message]. *)
Definition read_error_report (message : string) : Output :=
  Print2 (tint (Fore_RED pal) "[read loop error]") message.

(** The [except Exception] handler (lines 194-197), [outs] being what the
    pass had printed before the exception. *)
Definition reader_except (message : string) (outs : list Output) (w : Session)
  : Session :=
  {| inbound := inbound w; state := state w; stop_event := true;
     trace := trace w ++ outs ++
              (if stop_event w then [] else [read_error_report message]) |}.

(** One pass of the reader, from the return of the [readline()] it was
    blocked in to the next [while] test: the body and, should the body
    raise, the handler.  The [while] test itself is not part of it: the
    thread has passed it before it blocked. *)
Definition reader_step (w : Session) : Session :=
  match read_body w with
  | Ok w' => w'
  | Raise e => reader_except (exn_text e) [] w
  end.

(** Whether the frame loop runs out of lines before it has read [n]. *)
Fixpoint frame_runs_out (n : nat) (inbound : list string) : bool :=
  match n with
  | O => false
  | S n' =>
      match inbound with
      | [] => true
      | l :: rest => negb (is_empty l) && frame_runs_out n' rest
      end
  end.

(** Whether a pass runs out of lines: at its first [readline()], or at
    one of the nine that follow a marker. *)
Definition runs_out (inbound : list string) : bool :=
  match inbound with
  | [] => true
  | l :: rest =>
      negb (is_empty l) && String.eqb (rstrip l NLCR) "BOARD"
      && frame_runs_out 9 rest
  end.

(** A pass in which [readline()] raises once the lines of [inbound] are
    used up: a marker read before has cleared the screen, the lines read
    are lost, and the handler runs. *)
Definition reader_fault (message : string) (w : Session) : Session :=
  reader_except message
    (match inbound w with [] => [] | _ :: _ => [ClearScreen] end)
    {| inbound := []; state := state w; stop_event := stop_event w;
       trace := trace w |}.

(** One pass of the reader over a stream that ends, after the lines of
    [inbound], either closed by the peer ([fault = None]: [readline()]
    returns the empty string) or in an error ([fault = Some message]:
    [readline()] raises an exception with that text, such as a reset
    connection or undecodable bytes). *)
Definition reader_pass (fault : option string) (w : Session) : Session :=
  match fault with
  | Some message =>
      if runs_out (inbound w) then reader_fault message w else reader_step w
  | None => reader_step w
  end.

(** [read_loop] on its own, no other thread setting the stop signal:
    [None] when the fuel runs out before the loop ends. *)
Fixpoint read_loop (fault : option string) (fuel : nat) (w : Session)
  : option Session :=
  if stop_event w then Some w else
  match fuel with
  | O => None
  | S fuel' => read_loop fault fuel' (reader_pass fault w)
  end.

Inductive Control : Type := Continue | Break.

Definition set_ascii_only (w : Session) (b : bool) (outs : list Output) : Session :=
  {| inbound := inbound w;
     state := {| player_color := player_color (state w);
                 last_board := last_board (state w);
                 ascii_only := b |};
     stop_event := stop_event w;
     trace := trace w ++ outs |}.

(** [any(c in line.lower() for c in 'abcdefgh12345678')] *)
Definition looks_like_move (line : string) : bool :=
  any_char (fun c => char_in c (lower line)) "abcdefgh12345678".

Definition hint : string := "[hint] Use full notation: e2e4 or with piece: Nb1c3".

(** The body of the command loop of [main] (lines 278-319) for one line
    returned by [input()]; writes to the socket succeed. *)
Definition handle_line (raw : string) (w : Session) : res (Session * Control) :=
  let st := state w in
  let line := strip raw in
  if is_empty line then Ok (w, Continue) else
  let low := lower line in
  if String.eqb low "quit" || String.eqb low "exit" then Ok (w, Break) else
  let is_ff := String.eqb low "ff" || String.eqb low "forfeit" in
  let cmd := if is_ff then "FF" else line in
  if negb is_ff && String.eqb low "ascii" then
    Ok (set_ascii_only w true
          (Print (tint (Fore_YELLOW pal) "[display] switched to plain ASCII")
           :: (if has_board st then [Print (remove_char ESC (board_text st))] else [])),
        Continue)
  else if String.eqb low "unicode" then
    Ok (set_ascii_only w false
          (Print (tint (Fore_YELLOW pal) "[display] switched to colored unicode")
           :: (if has_board st then [Print (board_text st)] else [])),
        Continue)
  else if String.eqb low "redraw" then
    Ok (emit w (inbound w)
          [if has_board st then Print (board_text st) else Print "[no board yet]"],
        Continue)
  else
    let up := upper line in
    r <- (if negb (startswith up "MOVE " || startswith up "NAME " || String.eqb up "FF")
          then
            parsed <- parse_algebraic line ;;
            match parsed with
            | Some (String _ _ as p) => Ok ("MOVE " ++ p, [])
            | _ => Ok (cmd, if looks_like_move line
                            then [Print (tint (Fore_YELLOW pal) hint)] else [])
            end
          else Ok (cmd, [])) ;;
    let '(cmd, prints) := r in
    Ok (emit w (inbound w) (prints ++ [Send (cmd ++ NL)]), Continue).

(** The [finally] block of [main]: the stop signal, the QUIT line and
    the closing of the socket.  The closed socket is not a field of the
    session: it shows in [step], where a reader still blocked in
    [readline()] finds the stream closed. *)
Definition shutdown (w : Session) : Session :=
  {| inbound := inbound w; state := state w; stop_event := true;
     trace := trace w ++ [Send ("QUIT" ++ NL)] |}.

(** One pass of the command loop, from the return of the [input()] it was
    blocked in to the next [while] test: the line is handled whatever the
    stop signal has become meanwhile; a [break], an exception or a stop
    signal found set at the next test leaves the loop, and [finally]
    runs. *)
Definition user_step (raw : string) (w : Session) : Session :=
  match handle_line raw w with
  | Ok (w', Continue) => if stop_event w' then shutdown w' else w'
  | Ok (w', Break) => shutdown w'
  | Raise _ => shutdown w
  end.

(** What wakes a thread: the reader's [readline()] returns (or raises),
    [input()] returns a line, or [input()] raises [EOFError] (a keyboard
    interrupt at the prompt has the same effect: the loop is left for the
    [finally] block). *)
Inductive Event : Type :=
| Reader
| Typed (raw : string)
| InputClosed.

(** The two threads beside the session they share: each is either
    blocked in its call ([readline()], [input()]), having passed its
    [while] test, or has left its loop.  [read_fault] says how the
    inbound stream ends (see [reader_pass]). *)
Record Client : Type := mkClient {
  session : Session;
  reader_waiting : bool;
  main_waiting : bool;
  read_fault : option string
}.

Definition boot (fault : option string) (w : Session) : Client :=
  {| session := w;
     reader_waiting := negb (stop_event w);
     main_waiting := negb (stop_event w);
     read_fault := fault |}.

(** One event.  An event for a thread that has left its loop does
    nothing.  Once the command loop has left, the socket is shut down:
    the reader's pending [readline()] returns the empty string and the
    lines not yet received are lost. *)
Definition step (c : Client) (ev : Event) : Client :=
  let w := session c in
  match ev with
  | Reader =>
      if reader_waiting c then
        let w' :=
          if main_waiting c then reader_pass (read_fault c) w
          else reader_step {| inbound := []; state := state w;
                              stop_event := stop_event w; trace := trace w |} in
        {| session := w'; reader_waiting := negb (stop_event w');
           main_waiting := main_waiting c; read_fault := read_fault c |}
      else c
  | Typed raw =>
      if main_waiting c then
        let w' := user_step raw w in
        {| session := w'; reader_waiting := reader_waiting c;
           main_waiting := negb (stop_event w'); read_fault := read_fault c |}
      else c
  | InputClosed =>
      if main_waiting c then
        {| session := shutdown w; reader_waiting := reader_waiting c;
           main_waiting := false; read_fault := read_fault c |}
      else c
  end.

Definition run_client (evs : list Event) (c : Client) : Client :=
  fold_left step evs c.

(** The session after the events [evs], both threads starting blocked in
    their calls (unless the stop signal is already set) and the stream
    ending closed by the peer. *)
Definition run (evs : list Event) (w : Session) : Session :=
  session (run_client evs (boot None w)).

End Client.

Definition connect (inbound : list string) : Session :=
  {| inbound := inbound; state := initial_state; stop_event := false; trace := [] |}.

Definition start_position : list string :=
  [ "8 r n b q k b n r"; "7 p p p p p p p p"; "6 . . . . . . . .";
    "5 . . . . . . . ."; "4 . . . . . . . ."; "3 . . . . . . . .";
    "2 P P P P P P P P"; "1 R N B Q K B N R"; "  a b c d e f g h" ].

(** The raw lines of one board frame on the wire. *)
Definition wire (lines : list string) : list string := map (fun l => l ++ NL) lines.

(** ** Start of [main]: prompts, connection, opening commands

    What [main] does before its command loop (lines 201-273).  [name_in]
    and [mode_in] are what [input()] returns for the name and the mode,
    [key_in] what it returns for the room key, asked in modes 2 and 3 only;
    [connect_error] is the text of the exception of
    [socket.create_connection], if it raises. *)

Inductive Console : Type :=
| Say (text : string)
| Ask (prompt : string).

(** [Exited]: [sys.exit(code)], nothing written to the socket.
    [Running]: connected, with the lines written before the command loop. *)
Inductive Startup : Type :=
| Exited (code : Z) (console : list Console)
| Running (console : list Console) (written : list string).

(** Truth value of an optional string ([None] or a [str]). *)
Definition truthy (o : option string) : bool :=
  match o with
  | Some v => negb (is_empty v)
  | None => false
  end.

Definition text_of (o : option string) : string :=
  match o with
  | Some v => v
  | None => ""
  end.

Section Startup.

Variable pal : Palette.

Definition mode_menu : list Console :=
  [ Say (NL ++ Fore_YELLOW pal ++ "Game modes:" ++ Style_RESET_ALL pal);
    Say "  1. Quick match (auto-pair with waiting player)";
    Say "  2. Create private room";
    Say "  3. Join private room";
    Say "  4. Play against computer";
    Ask "Choose mode (1/2/3/4) [1]: " ].

(** The command written after the registration (lines 259-273). *)
Definition mode_command (room_key create_room : option string)
    (play_computer : bool) : string :=
  if truthy room_key then "JOIN " ++ text_of room_key ++ NL
  else if truthy create_room then
    (if String.eqb (text_of create_room) "auto" then "CREATE" ++ NL
     else "CREATE " ++ text_of create_room ++ NL)
  else if play_computer then "COMPUTER" ++ NL
  else "FIND" ++ NL.

Definition startup (connect_error : option string)
    (name_in mode_in key_in : string) : Startup :=
  let name := strip name_in in
  let name := if is_empty name then "Player" else name in
  let mode := strip mode_in in
  let mode := if is_empty mode then "1" else mode in
  let console :=
    ([ Say (tint pal (Fore_CYAN pal) "=== Terminal Chess ===");
       Ask "Enter your name: " ] ++ mode_menu)%list in
  let connect (console : list Console) (room_key create_room : option string)
      (play_computer : bool) : Startup :=
    let console :=
      (console ++ [Say (NL ++ Fore_GREEN pal ++ "Connecting to server..."
                          ++ Style_RESET_ALL pal)])%list in
    match connect_error with
    | Some e =>
        Exited 1 (console ++ [Say (tint pal (Fore_RED pal) "Failed to connect:"
                                     ++ " " ++ e)])%list
    | None =>
        Running console
          [ "NAME " ++ name ++ NL;
            mode_command room_key create_room play_computer ]
    end in
  if String.eqb mode "2" then
    let custom_key := strip key_in in
    connect (console ++ [Ask "Enter room key (leave empty for random): "])%list
      None (Some (if negb (is_empty custom_key) then custom_key else "auto")) false
  else if String.eqb mode "3" then
    let room_key := strip key_in in
    let console := (console ++ [Ask "Enter room key: "])%list in
    if is_empty room_key
    then Exited 1 (console ++ [Say (tint pal (Fore_RED pal) "Room key required!")])%list
    else connect console (Some room_key) None false
  else if String.eqb mode "4" then connect console None None true
  else connect console None None false.

End Startup.

(** The lines written to the socket before the command loop. *)
Definition opening (st : Startup) : list string :=
  match st with
  | Exited _ _ => []
  | Running _ written => written
  end.

(** ** Auxiliary definitions used in the statements *)

(** Membership in a fixed alphabet, as a list of cases. *)
Fixpoint chars (set : string) : list ascii :=
  match set with
  | EmptyString => []
  | String c set' => c :: chars set'
  end.

Definition marks : string := "x+#=".

(** The piece letters, in either case. *)
Definition piece_letters : string := "KQRBNkqrbn".

(** The cell shown for an enumerated piece, the rank number being known. *)
Definition cell_of (pal : Palette) (use_unicode colorize flip : bool) (n : Z)
    (ip : Z * string) : string :=
  cell_text pal use_unicode colorize (dark flip (fst ip) n) (snd ip).

Definition plain_symbol (piece : string) : string :=
  if String.eqb piece "." then " " else piece.

Definition nonempty (l : string) : Prop := l <> "".

Definition unwire (frame : list string) : list string :=
  map (fun l => rstrip l NLCR) frame.

Definition event_like_frame : list string :=
  [ "START BLACK bob"; "YOURMOVE"; "ERROR no"; "BOARD"; "END draw";
    "QUEUE 1"; "ROOM k"; "CANCELLED k"; "  a b c d e f g h" ].

Definition truncated_stream : list string :=
  wire ["BOARD"; "8 r n b q k b n r"; "7 p p p p p p p p"].

Definition partial_board : string :=
  join NL ["8  ♜  ♞  ♝  ♛  ♚  ♝  ♞  ♜ "; "7  ♟  ♟  ♟  ♟  ♟  ♟  ♟  ♟ ";
           "  a b c d e f g h"].

(** A raw line that the reader would not take for a START event. *)
Definition not_start (l : string) : Prop :=
  startswith (rstrip l NLCR) "START " = false.

Definition ascii_then_redraw : Session :=
  run colorama [Reader; Typed "ascii"; Typed "redraw"]
    (connect (wire ("BOARD" :: start_position))).

(** Text that the command loop sends without consulting the normalizer. *)
Definition sent_verbatim (line : string) : bool :=
  startswith (upper line) "MOVE " || startswith (upper line) "NAME "
  || String.eqb (upper line) "FF".

Definition local_commands : list string :=
  ["quit"; "exit"; "ff"; "forfeit"; "ascii"; "unicode"; "redraw"].

(** Text without surrounding whitespace. *)
Definition trimmed (s : string) : Prop := strip s = s.

(** A rank row as the protocol sends it: a label and eight cells. *)
Definition well_formed_row (raw : string) : Prop :=
  exists rank pieces, split raw = rank :: pieces /\ length pieces = 8%nat.

(** A rendered row, from its rank label and its cells in display order. *)
Definition line_of (row : string * list string) : string :=
  fst row ++ " " ++ join "" (snd row).

Definition mirror (row : string * list string) : string * list string :=
  (fst row, rev (snd row)).

(** The number [render_board] takes for a rank label: [int(rank)], and 0
    when that raises. *)
Definition rank_value (rank : string) : Z :=
  match int rank with
  | Ok n => n
  | Raise _ => 0
  end.

(** A rank row as it is shown unflipped: its label, and its cells in the
    order received, the cell at position [i] styled as the square of file
    index [i] on that rank (dark when [i] plus the rank number is odd). *)
Definition shown_row (pal : Palette) (use_unicode colorize : bool) (raw : string)
  : string * list string :=
  let rank := hd "" (split raw) in
  (rank,
   map (fun ip => cell_text pal use_unicode colorize
                    (Z.odd (fst ip + rank_value rank)) (snd ip))
     (enumerate (tl (split raw)))).

Definition no_escape (s : string) : Prop := has_escape s = false.

(** The keys of [UNICODE_MAP]. *)
Definition piece_codes : list string := map fst UNICODE_MAP.

(** What the reader prints when [readline] returns the empty string. *)
Definition closed_notice (pal : Palette) : Output :=
  Print (tint pal (Fore_YELLOW pal) "[connection closed by server]").


(** The data written to the socket, in order. *)
Fixpoint sent (trace : list Output) : list string :=
  match trace with
  | [] => []
  | Send data :: trace' => data :: sent trace'
  | _ :: trace' => sent trace'
  end.

(** * Properties *)

(** ** Python primitives *)

Example int_examples :
  int "1_0" = Ok 10 /\ int "-7" = Ok (-7) /\ int " +08 " = Ok 8
  /\ int "a" = Raise ValueError /\ int "1__0" = Raise ValueError
  /\ int "" = Raise ValueError /\ int "-" = Raise ValueError.
Proof. repeat split; reflexivity. Qed.

Example split_examples :
  split "  8 r n  b" = ["8"; "r"; "n"; "b"] /\ split "" = [] /\ length (split "1 R N B Q K B N R") = 9%nat.
Proof. repeat split; reflexivity. Qed.

Lemma len_cons c s : len (String c s) = 1 + len s.
Proof. unfold len. cbn [String.length]. lia. Qed.

Lemma len_nonneg s : 0 <= len s.
Proof. unfold len. lia. Qed.

Lemma rstrip_by_last p s c :
  p c = false -> rstrip_by p (s ++ String c "") = s ++ String c "".
Proof.
  intros Hc. induction s as [|d s IH]; cbn.
  - now rewrite Hc.
  - rewrite IH. destruct s; cbn; now rewrite andb_false_r.
Qed.

Lemma strip_id c s d :
  isspace c = false -> isspace d = false ->
  strip (String c (s ++ String d "")) = String c (s ++ String d "").
Proof.
  intros Hc Hd. unfold strip. cbn [lstrip_by]. rewrite Hc.
  change (String c (s ++ String d "")) with (String c s ++ String d "").
  now apply rstrip_by_last.
Qed.

Lemma strip_id1 c : isspace c = false -> strip (String c "") = String c "".
Proof.
  intros Hc. unfold strip. cbn [lstrip_by]. rewrite Hc.
  cbn [rstrip_by]. now rewrite Hc.
Qed.

Lemma char_in_In c set : char_in c set = true <-> In c (chars set).
Proof.
  induction set as [|d set IH]; cbn; [easy|].
  rewrite orb_true_iff, IH. destruct (Ascii.eqb_spec c d); intuition congruence.
Qed.

Lemma file_cases c : char_in c files = true -> In c (chars files).
Proof. apply char_in_In. Qed.

Lemma rank_cases c : char_in c ranks = true -> In c (chars ranks).
Proof. apply char_in_In. Qed.

Lemma file_not_space c : char_in c files = true -> isspace c = false.
Proof. intros H%file_cases. cbn in H. intuition (subst; reflexivity). Qed.

Lemma rank_not_space c : char_in c ranks = true -> isspace c = false.
Proof. intros H%rank_cases. cbn in H. intuition (subst; reflexivity). Qed.

(** ** NotationNormalizer *)

Lemma getitem_0 c s : getitem (String c s) 0 = Ok c.
Proof. reflexivity. Qed.

Lemma getitem_1 c d s : getitem (String c (String d s)) 1 = Ok d.
Proof. reflexivity. Qed.

Lemma item_in_0 c s set : item_in (String c s) 0 set = Ok (char_in c set).
Proof. reflexivity. Qed.

Lemma item_in_1 c d s set : item_in (String c (String d s)) 1 set = Ok (char_in d set).
Proof. reflexivity. Qed.

Lemma item_in_2 c d e s set :
  item_in (String c (String d (String e s))) 2 set = Ok (char_in e set).
Proof. reflexivity. Qed.

Lemma andM_true m : Ok true &&& m = m.
Proof. reflexivity. Qed.

Lemma andM_false m : Ok false &&& m = Ok false.
Proof. reflexivity. Qed.

Lemma bind_Ok {A B : Type} (a : A) (k : A -> res B) : bind (Ok a) k = k a.
Proof. reflexivity. Qed.

Create Rewrite HintDb py.
#[local] Hint Rewrite getitem_0 getitem_1 item_in_0 item_in_1 item_in_2
  andM_true andM_false @bind_Ok : py.

(** Evaluate a test on the characters of a string of known shape, deciding
    the character classes from the hypotheses at hand. *)
Ltac eval_py :=
  repeat (autorewrite with py;
          match goal with
          | H : char_in ?c ?set = _ |- context [char_in ?c ?set] => rewrite H
          end);
  autorewrite with py.

Lemma len_ge_4 a b c d s : (4 <=? len (String a (String b (String c (String d s))))) = true.
Proof. rewrite !len_cons. pose proof (len_nonneg s). apply Z.leb_le. lia. Qed.

Lemma is_coordinate_4 a b c d s :
  is_coordinate (String a (String b (String c (String d s))))
  = Ok (char_in a files && char_in b ranks && char_in c files).
Proof.
  unfold is_coordinate. rewrite len_ge_4. autorewrite with py.
  destruct (char_in a files); autorewrite with py; trivial.
  destruct (char_in b ranks); autorewrite with py; trivial.
Qed.

(** Text that starts in coordinate form and carries no surrounding
    whitespace is passed through, whatever follows the third character. *)
Lemma coordinate_prefix_unchanged f1 r1 f2 c rest :
  let s := String f1 (String r1 (String f2 (String c rest))) in
  strip s = s ->
  char_in f1 files = true -> char_in r1 ranks = true -> char_in f2 files = true ->
  parse_algebraic s = Ok (Some s).
Proof.
  intros s Hs H1 H2 H3. unfold parse_algebraic. rewrite Hs.
  unfold s at 1 2 3. now rewrite is_coordinate_4, H1, H2, H3.
Qed.

(** C2: every input that begins in the coordinate form
    [a-h][1-8][a-h][1-8], whatever follows the fourth character (a
    promotion letter, say), is returned unchanged by [parse_algebraic];
    the text is the trimmed text that the normalizer is given, and text
    of exactly four characters is always trimmed. *)
Theorem coordinate_form_unchanged f1 r1 f2 r2 rest :
  char_in f1 files = true -> char_in r1 ranks = true ->
  char_in f2 files = true -> char_in r2 ranks = true ->
  let s := String f1 (String r1 (String f2 (String r2 rest))) in
  (strip s = s -> parse_algebraic s = Ok (Some s))
  /\ parse_algebraic (String f1 (String r1 (String f2 (String r2 ""))))
     = Ok (Some (String f1 (String r1 (String f2 (String r2 ""))))).
Proof.
  intros H1 H2 H3 H4 s. split.
  - intros Hs. now apply coordinate_prefix_unchanged.
  - apply coordinate_prefix_unchanged; trivial.
    apply (strip_id f1 (String r1 (String f2 "")) r2).
    + now apply file_not_space.
    + now apply rank_not_space.
Qed.

Lemma coordinate_form_unchanged_witness :
  parse_algebraic "e7e8q" = Ok (Some "e7e8q")
  /\ parse_algebraic "e2e4" = Ok (Some "e2e4").
Proof.
  destruct (coordinate_form_unchanged "e" "7" "e" "8" "q") as [Hlong _];
    try reflexivity.
  destruct (coordinate_form_unchanged "e" "2" "e" "4" "") as [_ Hfour];
    try reflexivity.
  split; [apply Hlong; reflexivity | exact Hfour].
Defined.

Lemma remove_char_keep x c s :
  Ascii.eqb c x = false -> remove_char x (String c s) = String c (remove_char x s).
Proof. intros H. cbn. now rewrite H. Qed.

Lemma remove_pair_keep a b c s :
  Ascii.eqb c a = false -> remove_pair a b (String c s) = String c (remove_pair a b s).
Proof. intros H. destruct s; cbn; now rewrite ?H. Qed.

Lemma remove_pair_keep_snd a b c d s :
  Ascii.eqb d b = false ->
  remove_pair a b (String c (String d s)) = String c (remove_pair a b (String d s)).
Proof. intros H. cbn [remove_pair]. now rewrite H, andb_false_r. Qed.

Lemma not_mark_inv c :
  char_in c marks = false ->
  Ascii.eqb c "x" = false /\ Ascii.eqb c "+" = false /\
  Ascii.eqb c "#" = false /\ Ascii.eqb c "=" = false.
Proof.
  cbn. rewrite !orb_false_iff. tauto.
Qed.

(** A character that is not a mark survives the whole chain of [replace]. *)
Lemma remove_marks_keep c s :
  char_in c marks = false -> remove_marks (String c s) = String c (remove_marks s).
Proof.
  intros (Hx & Hp & Hh & He)%not_mark_inv. unfold remove_marks.
  rewrite !remove_char_keep by assumption.
  now rewrite !remove_pair_keep by assumption.
Qed.

Lemma file_not_mark c : char_in c files = true -> char_in c marks = false.
Proof. intros H%file_cases. cbn in H. intuition (subst; reflexivity). Qed.

Lemma rank_not_mark c : char_in c ranks = true -> char_in c marks = false.
Proof. intros H%rank_cases. cbn in H. intuition (subst; reflexivity). Qed.

(** Text in coordinate form keeps at least three characters when its marks
    are removed, so rule 1 never hides a bare pawn destination. *)
Lemma coordinate_not_pawn a b c s f r :
  char_in a files = true -> char_in b ranks = true -> char_in c files = true ->
  remove_marks (String a (String b (String c s))) <> String f (String r "").
Proof.
  intros Ha Hb Hc.
  rewrite !remove_marks_keep by auto using file_not_mark, rank_not_mark.
  discriminate.
Qed.

(** C3: when the text left after trimming and removing the capture, check
    and promotion marks is exactly a file letter followed by a rank digit,
    [parse_algebraic] returns file, start rank, file, rank, where the
    start rank is 2 for destination ranks 3 and 4, 7 for 5 and 6, and 2
    otherwise; so e4, e5 and d4 give e2e4, e7e5 and d2d4. *)
Theorem pawn_destination_start_rank s f r :
  remove_marks (strip s) = String f (String r "") ->
  char_in f files = true -> char_in r ranks = true ->
  parse_algebraic s
  = Ok (Some (String f (String (start_rank r) (String f (String r "")))))
  /\ (r = "3"%char \/ r = "4"%char -> start_rank r = "2"%char)
  /\ (r = "5"%char \/ r = "6"%char -> start_rank r = "7"%char)
  /\ (~ In r (chars "3456") -> start_rank r = "2"%char)
  /\ parse_algebraic "e4" = Ok (Some "e2e4")
  /\ parse_algebraic "e5" = Ok (Some "e7e5")
  /\ parse_algebraic "d4" = Ok (Some "d2d4").
Proof.
  intros Hm Hf Hr. split; [|repeat split].
  - unfold parse_algebraic. remember (strip s) as t eqn:Et. clear Et.
    assert (Hcoord : is_coordinate t = Ok false).
    { destruct t as [|a [|b [|c [|d u]]]]; try reflexivity.
      rewrite is_coordinate_4.
      destruct (char_in a files) eqn:Ha; trivial.
      destruct (char_in b ranks) eqn:Hb; trivial.
      destruct (char_in c files) eqn:Hc; trivial.
      now destruct (coordinate_not_pawn a b c (String d u) f r Ha Hb Hc). }
    destruct t as [|a t]; [discriminate Hm|].
    cbn [is_empty]. rewrite Hcoord. cbn [bind].
    rewrite Hm. unfold parse_unmarked.
    change (len (String f (String r "")) =? 2) with true.
    now eval_py.
  - intros [-> | ->]; reflexivity.
  - intros [-> | ->]; reflexivity.
  - intros Hn. unfold start_rank. cbn in Hn.
    destruct (char_in r "34") eqn:H34; [reflexivity|].
    destruct (char_in r "56") eqn:H56; [|reflexivity].
    apply char_in_In in H56. cbn in H56. tauto.
Qed.

Lemma pawn_destination_start_rank_witness :
  parse_algebraic " e6+ " = Ok (Some "e7e6").
Proof.
  apply (pawn_destination_start_rank " e6+ " "e" "6"); reflexivity.
Defined.

Lemma piece_cases p :
  char_in (upper_char p) piece_chars = true -> In p (chars piece_letters).
Proof.
  destruct p as [[] [] [] [] [] [] [] []]; intros H; vm_compute in H;
    try discriminate H; cbn; tauto.
Qed.

Lemma piece_not_space p : char_in (upper_char p) piece_chars = true -> isspace p = false.
Proof. intros H%piece_cases. cbn in H. intuition (subst; reflexivity). Qed.

Lemma piece_not_mark p : char_in (upper_char p) piece_chars = true -> char_in p marks = false.
Proof. intros H%piece_cases. cbn in H. intuition (subst; reflexivity). Qed.

Lemma piece_file_is_b p :
  char_in (upper_char p) piece_chars = true -> char_in p files = true -> p = "b"%char.
Proof.
  intros H%piece_cases. cbn in H.
  intuition (subst; try reflexivity; discriminate).
Qed.

Lemma file_not_rank c : char_in c files = true -> char_in c ranks = false.
Proof. intros H%file_cases. cbn in H. intuition (subst; reflexivity). Qed.

Lemma remove_marks_nil : remove_marks "" = "".
Proof. reflexivity. Qed.

(** One arbitrary character in front of a square is either dropped (a
    capture, check or mate mark) or kept. *)
Lemma remove_marks_one d f r :
  char_in f files = true -> char_in r ranks = true ->
  remove_marks (String d (String f (String r ""))) = String f (String r "")
  \/ remove_marks (String d (String f (String r "")))
     = String d (String f (String r "")).
Proof.
  intros Hf%file_cases Hr%rank_cases. cbn in Hf, Hr.
  repeat match goal with
         | H : _ \/ _ |- _ => destruct H as [<- | H]
         | H : False |- _ => destruct H
         end;
    cbn;
    repeat match goal with
           | |- context [Ascii.eqb d ?c] => destruct (Ascii.eqb d c); cbn
           end;
    solve [now left | now right].
Qed.

Section PieceMoves.

Variables p f r : ascii.
Hypothesis Hp : char_in (upper_char p) piece_chars = true.
Hypothesis Hf : char_in f files = true.
Hypothesis Hr : char_in r ranks = true.

Let dest : string := String f (String r "").

Ltac eval_piece :=
  unfold parse_unmarked;
  repeat (cbv -[char_in files ranks piece_chars upper_char];
          match goal with
          | H : char_in ?c ?set = _ |- context [char_in ?c ?set] => rewrite H
          end);
  cbv -[char_in files ranks piece_chars upper_char].

Lemma piece_full_source s1 s2 :
  char_in s1 files = true -> char_in s2 ranks = true ->
  parse_algebraic (String p (String s1 (String s2 dest)))
  = Ok (Some (String s1 (String s2 dest))).
Proof.
  intros H1 H2. unfold parse_algebraic, dest.
  assert (Hs : strip (String p (String s1 (String s2 (String f (String r "")))))
               = String p (String s1 (String s2 (String f (String r ""))))).
  { apply (strip_id p (String s1 (String s2 (String f ""))) r);
      auto using piece_not_space, rank_not_space. }
  rewrite Hs. cbn [is_empty].
  rewrite is_coordinate_4, (file_not_rank _ H1), andb_false_r. cbn [bind andb].
  rewrite !remove_marks_keep, remove_marks_nil
    by auto using piece_not_mark, file_not_mark, rank_not_mark.
  now eval_piece.
Qed.

Lemma piece_no_source :
  parse_algebraic (String p dest) = Ok None.
Proof.
  unfold parse_algebraic, dest.
  assert (Hs : strip (String p (String f (String r "")))
               = String p (String f (String r ""))).
  { apply (strip_id p (String f "") r);
      auto using piece_not_space, rank_not_space. }
  rewrite Hs. cbn [is_empty].
  change (is_coordinate (String p (String f (String r "")))) with (Ok false : res bool).
  cbn [bind].
  rewrite !remove_marks_keep, remove_marks_nil
    by auto using piece_not_mark, file_not_mark, rank_not_mark.
  now eval_piece.
Qed.

Lemma piece_one_char d :
  ~ (p = "b"%char /\ char_in d ranks = true) ->
  parse_algebraic (String p (String d dest)) = Ok None.
Proof.
  intros Hn. unfold parse_algebraic, dest.
  assert (Hs : strip (String p (String d (String f (String r ""))))
               = String p (String d (String f (String r "")))).
  { apply (strip_id p (String d (String f "")) r);
      auto using piece_not_space, rank_not_space. }
  rewrite Hs. cbn [is_empty]. rewrite is_coordinate_4.
  assert (Hc : char_in p files && char_in d ranks = false).
  { destruct (char_in p files) eqn:E1; trivial.
    destruct (char_in d ranks) eqn:E2; trivial.
    destruct Hn. split; [now apply piece_file_is_b | reflexivity]. }
  rewrite Hc. cbn [andb bind].
  rewrite (remove_marks_keep p) by auto using piece_not_mark.
  destruct (remove_marks_one d f r Hf Hr) as [E | E]; rewrite E; now eval_piece.
Qed.

Lemma piece_b_rank d :
  p = "b"%char -> char_in d ranks = true ->
  parse_algebraic (String p (String d dest)) = Ok (Some (String p (String d dest))).
Proof.
  intros -> Hd. apply coordinate_prefix_unchanged; trivial.
  apply (strip_id "b" (String d (String f "")) r);
    auto using rank_not_space.
Qed.

End PieceMoves.

(** C4 (amended): for a piece letter [p] (K, Q, R, B, N in either case) and
    a valid destination square [f r]: two characters in between that form
    a valid square give source followed by destination; no character in
    between gives unparseable; one character [d] in between gives
    unparseable unless the text is lowercase b followed by a rank digit,
    which is already coordinate notation and is returned unchanged. *)
Theorem piece_move_disambiguation p f r :
  char_in (upper_char p) piece_chars = true ->
  char_in f files = true -> char_in r ranks = true ->
  let dest := String f (String r "") in
  (forall s1 s2, char_in s1 files = true -> char_in s2 ranks = true ->
     parse_algebraic (String p (String s1 (String s2 dest)))
     = Ok (Some (String s1 (String s2 dest))))
  /\ parse_algebraic (String p dest) = Ok None
  /\ (forall d, ~ (p = "b"%char /\ char_in d ranks = true) ->
       parse_algebraic (String p (String d dest)) = Ok None)
  /\ (forall d, p = "b"%char -> char_in d ranks = true ->
       parse_algebraic (String p (String d dest))
       = Ok (Some (String p (String d dest))))
  /\ parse_algebraic "Nb1d7" = Ok (Some "b1d7")
  /\ parse_algebraic "Nc3" = Ok None
  /\ parse_algebraic "Nbc3" = Ok None.
Proof.
  intros Hp Hf Hr dest. repeat split.
  - intros s1 s2. now apply piece_full_source.
  - now apply piece_no_source.
  - intros d. now apply piece_one_char.
  - intros d. now apply piece_b_rank.
Qed.

Lemma piece_move_disambiguation_witness :
  parse_algebraic "Qd1h5" = Ok (Some "d1h5") /\ parse_algebraic "Qh5" = Ok None.
Proof.
  destruct (piece_move_disambiguation "Q" "h" "5") as (Hfull & Hnone & _);
    try reflexivity.
  split; [apply (Hfull "d"%char "1"%char); reflexivity | exact Hnone].
Defined.

(** C4 as stated fails: b1c3 starts with a piece letter (b, case-insensitive),
    ends in the valid square c3 and has one character in between, yet it
    is returned as a move. *)
Lemma piece_one_char_counterexample :
  char_in (upper_char "b") piece_chars = true
  /\ char_in "c" files = true /\ char_in "3" ranks = true
  /\ parse_algebraic "b1c3" = Ok (Some "b1c3")
  /\ ~ (forall p d f r,
          char_in (upper_char p) piece_chars = true ->
          char_in f files = true -> char_in r ranks = true ->
          parse_algebraic (String p (String d (String f (String r "")))) = Ok None).
Proof.
  repeat split. intros H.
  specialize (H "b" "1" "c" "3" eq_refl eq_refl eq_refl)%char. discriminate H.
Qed.


(** ** BoardRenderer *)

Lemma int_raises_ValueError s e : int s = Raise e -> e = ValueError.
Proof.
  unfold int.
  destruct (match strip s with
            | EmptyString => (1, strip s)
            | String c t' =>
                if Ascii.eqb c "-" then (-1, t')
                else if Ascii.eqb c "+" then (1, t') else (1, strip s)
            end) as [sign digits].
  destruct (int_digits digits 0 false); [discriminate | congruence].
Qed.

(** The [try]/[except ValueError] around [int(rank)] always yields a number. *)
Lemma rank_number_total rank : exists n, rank_number rank = Ok n.
Proof.
  unfold rank_number. destruct (int rank) as [n | e] eqn:E; [eauto|].
  apply int_raises_ValueError in E as ->. eauto.
Qed.

Lemma dark_odd flip shown n :
  dark flip shown n = Z.odd (actual_file flip shown + n).
Proof.
  unfold dark. rewrite Zmod_odd. now destruct (Z.odd _).
Qed.

Lemma mapM_map {A B : Type} (f : A -> res B) (g : A -> B) l :
  (forall a, In a l -> f a = Ok (g a)) -> mapM f l = Ok (map g l).
Proof.
  induction l as [|a l IH]; intros H; cbn; [reflexivity|].
  rewrite (H a) by now left. cbn. rewrite IH by (intros; apply H; now right).
  reflexivity.
Qed.

Lemma mapM_total {A B : Type} (f : A -> res B) l :
  (forall a, exists b, f a = Ok b) ->
  exists bs, mapM f l = Ok bs /\ length bs = length l /\
             forall i a, nth_error l i = Some a ->
                         exists b, f a = Ok b /\ nth_error bs i = Some b.
Proof.
  intros Hf. induction l as [|a l (bs & E & Hlen & Hnth)]; cbn.
  - exists []. repeat split. intros [|i] a; discriminate.
  - destruct (Hf a) as [b Eb]. rewrite Eb, E. cbn. exists (b :: bs).
    repeat split; [cbn; congruence|].
    intros [|i] a'; cbn.
    + intros [= <-]. eauto.
    + apply Hnth.
Qed.

Section RendererFacts.

Variable pal : Palette.
Variables use_unicode colorize : bool.

Lemma render_cell_Ok flip rank n ip :
  rank_number rank = Ok n ->
  render_cell pal use_unicode colorize flip rank ip
  = Ok (cell_of pal use_unicode colorize flip n ip).
Proof. intros E. destruct ip as [i piece]. unfold render_cell. now rewrite E. Qed.

Lemma render_cells_Ok flip rank n l :
  rank_number rank = Ok n ->
  mapM (render_cell pal use_unicode colorize flip rank) l
  = Ok (map (cell_of pal use_unicode colorize flip n) l).
Proof. intros E. apply mapM_map. intros a _. now apply render_cell_Ok. Qed.

Lemma render_row_short flip raw :
  Z.of_nat (length (split raw)) < 9 ->
  render_row pal use_unicode colorize flip raw = Ok raw.
Proof.
  intros H. unfold render_row.
  destruct (Z.ltb_spec (Z.of_nat (length (split raw))) 9); [reflexivity | lia].
Qed.

Lemma render_row_parts flip raw rank pieces n :
  split raw = rank :: pieces -> (8 <= length pieces)%nat ->
  rank_number rank = Ok n ->
  render_row pal use_unicode colorize flip raw
  = Ok (rank ++ " " ++
        join "" (map (cell_of pal use_unicode colorize flip n)
                   (enumerate (if flip then rev pieces else pieces)))).
Proof.
  intros E Hlen En. unfold render_row. rewrite E.
  destruct (Z.ltb_spec (Z.of_nat (length (rank :: pieces))) 9) as [Hlt|_].
  { cbn [length] in Hlt. lia. }
  cbn [list_getitem Z.ltb Z.compare Z.to_nat nth_error bind tl].
  now rewrite (render_cells_Ok _ _ n).
Qed.

Lemma render_row_total flip raw :
  exists line, render_row pal use_unicode colorize flip raw = Ok line.
Proof.
  destruct (Z.ltb_spec (Z.of_nat (length (split raw))) 9) as [Hlt|Hge].
  - exists raw. now apply render_row_short.
  - destruct (split raw) as [|rank pieces] eqn:E; [cbn in Hge; lia|].
    destruct (rank_number_total rank) as [n En].
    eexists. apply (render_row_parts flip raw rank pieces n); trivial.
    cbn [length] in Hge. lia.
Qed.

End RendererFacts.

(** The rank number of a rank label from 1 to 8 is its digit. *)
Lemma rank_number_digit d :
  char_in d ranks = true -> rank_number (String d "") = Ok (code d - 48).
Proof.
  intros H%rank_cases. cbn in H. intuition (subst; reflexivity).
Qed.

(** C5: on a well-formed rank row (a rank label from 1 to 8 and eight
    cells), rendered in colour, the cell of true file [file] carries the
    dark background [Back.BLUE] when file index plus rank number is odd
    and the light background [Back.WHITE] when it is even; the flipped
    row is the mirror image of the unflipped one, so the cell of a true
    square, background included, is the same text in both orientations
    (at displayed position 7 - file under flip); and on rank 1 the cell
    of file 0, the square a1, is dark either way. *)
Theorem square_colour_anchored pal use_unicode raw d pieces :
  split raw = String d "" :: pieces ->
  char_in d ranks = true ->
  length pieces = 8%nat ->
  let rank := String d "" in
  let rank_num := code d - 48 in
  let cell (file : nat) (piece : string) :=
    (if Z.odd (Z.of_nat file + rank_num) then Back_BLUE pal else Back_WHITE pal)
    ++ cell_fg pal piece ++ " " ++ cell_symbol use_unicode piece ++ " "
    ++ Style_RESET_ALL pal in
  exists cells,
    length cells = 8%nat
    /\ render_row pal use_unicode true false raw
       = Ok (rank ++ " " ++ join "" cells)
    /\ render_row pal use_unicode true true raw
       = Ok (rank ++ " " ++ join "" (rev cells))
    /\ (forall file piece, nth_error pieces file = Some piece ->
          nth_error cells file = Some (cell file piece)
          /\ nth_error (rev cells) (7 - file) = Some (cell file piece))
    /\ (d = "1"%char ->
        forall piece, nth_error pieces 0 = Some piece ->
          nth_error cells 0
          = Some (Back_BLUE pal ++ cell_fg pal piece ++ " "
                  ++ cell_symbol use_unicode piece ++ " " ++ Style_RESET_ALL pal)
          /\ nth_error (rev cells) 7
             = Some (Back_BLUE pal ++ cell_fg pal piece ++ " "
                     ++ cell_symbol use_unicode piece ++ " " ++ Style_RESET_ALL pal)).
Proof.
  intros E Hd Hlen rank rank_num cell.
  pose proof (rank_number_digit d Hd) as En. fold rank rank_num in En.
  assert (Hcell : forall flip shown file piece,
            actual_file flip shown = Z.of_nat file ->
            cell_of pal use_unicode true flip rank_num (shown, piece)
            = cell file piece).
  { intros flip shown file piece Hfile.
    unfold cell_of, cell_text, cell_bg, cell. cbn [fst snd].
    now rewrite dark_odd, Hfile. }
  exists (map (cell_of pal use_unicode true false rank_num) (enumerate pieces)).
  assert (Hboth :
    forall file piece, nth_error pieces file = Some piece ->
      nth_error (map (cell_of pal use_unicode true false rank_num) (enumerate pieces))
        file = Some (cell file piece)
      /\ nth_error (rev (map (cell_of pal use_unicode true false rank_num)
                           (enumerate pieces))) (7 - file)
         = Some (cell file piece)).
  { intros file piece Hnth.
    do 9 (destruct pieces as [|? pieces]; try discriminate Hlen).
    unfold enumerate. cbn [map enumerate_from rev app].
    do 8 (destruct file as [|file];
          [injection Hnth as <-; cbn [nth_error Nat.sub];
           split; (f_equal; apply Hcell; reflexivity)|]).
    destruct file; discriminate Hnth. }
  split; [now rewrite length_map; unfold enumerate;
          do 9 (destruct pieces as [|? pieces]; try discriminate Hlen)|].
  split; [now rewrite (render_row_parts _ _ _ false raw rank pieces rank_num)
            by (trivial; lia)|].
  split.
  { rewrite (render_row_parts _ _ _ true raw rank pieces rank_num) by (trivial; lia).
    do 9 (destruct pieces as [|? pieces]; try discriminate Hlen).
    reflexivity. }
  split; [exact Hboth|].
  intros -> piece Hnth. destruct (Hboth 0%nat piece Hnth) as [H0 H7].
  split; [exact H0 | exact H7].
Qed.

Lemma square_colour_anchored_witness :
  exists cells,
    render_row colorama true true false "1 R N B Q K B N R"
    = Ok ("1" ++ " " ++ join "" cells)
    /\ render_row colorama true true true "1 R N B Q K B N R"
       = Ok ("1" ++ " " ++ join "" (rev cells))
    /\ nth_error cells 0
       = Some (Back_BLUE colorama ++ cell_fg colorama "R" ++ " "
               ++ cell_symbol true "R" ++ " " ++ Style_RESET_ALL colorama).
Proof.
  destruct (square_colour_anchored colorama true "1 R N B Q K B N R" "1"
              ["R"; "N"; "B"; "Q"; "K"; "B"; "N"; "R"] eq_refl eq_refl eq_refl)
    as (cells & _ & Hplain & Hflip & _ & Ha1).
  exists cells. split; [exact Hplain|]. split; [exact Hflip|].
  now destruct (Ha1 eq_refl "R" eq_refl).
Defined.

Lemma list_getitem_last {A : Type} (l : list A) :
  l <> [] -> exists a, list_getitem l (-1) = Ok a.
Proof.
  intros Hne. unfold list_getitem. cbn [Z.ltb Z.compare].
  assert (Hlen : (0 < length l)%nat) by (destruct l; [congruence | cbn; lia]).
  destruct (Z.ltb_spec (-1 + Z.of_nat (length l)) 0); [lia|].
  destruct (nth_error l (Z.to_nat (-1 + Z.of_nat (length l)))) eqn:E; [eauto|].
  apply nth_error_None in E. lia.
Qed.

(** The renderer is total: every row renders, and the label line follows. *)
Lemma render_lines_total pal use_unicode colorize flip ascii_lines :
  exists rows labels,
    mapM (render_row pal use_unicode colorize flip) (board_rows_of flip ascii_lines)
    = Ok rows
    /\ render_lines pal use_unicode colorize flip ascii_lines
       = Ok (rows ++ [labels])%list
    /\ render_board pal use_unicode colorize flip ascii_lines
       = Ok (join NL (rows ++ [labels])).
Proof.
  destruct (mapM_total (render_row pal use_unicode colorize flip)
              (board_rows_of flip ascii_lines)
              (render_row_total pal use_unicode colorize flip))
    as (rows & Erows & _).
  assert (Hlabels : exists file_labels,
            (if (length ascii_lines =? 9)%nat
             then list_getitem ascii_lines (-1)
             else Ok default_labels) = Ok file_labels).
  { destruct (Nat.eqb_spec (length ascii_lines) 9) as [E9|_]; [|eauto].
    apply list_getitem_last. intros ->. discriminate E9. }
  destruct Hlabels as [file_labels Elabels].
  exists rows. eexists. split; [exact Erows|].
  unfold render_board, render_lines. rewrite Elabels. cbn [bind].
  rewrite Erows. cbn [bind]. split; reflexivity.
Qed.

(** C6: rendering never raises, gives one line per board row plus the
    label line, and a row with fewer than nine whitespace-separated tokens
    is emitted as the raw line, unchanged, at its place. *)
Theorem malformed_row_passthrough pal use_unicode colorize flip ascii_lines :
  exists out_lines,
    render_lines pal use_unicode colorize flip ascii_lines = Ok out_lines
    /\ render_board pal use_unicode colorize flip ascii_lines
       = Ok (join NL out_lines)
    /\ length out_lines = S (length (board_rows_of flip ascii_lines))
    /\ forall i raw,
         nth_error (board_rows_of flip ascii_lines) i = Some raw ->
         Z.of_nat (length (split raw)) < 9 ->
         nth_error out_lines i = Some raw.
Proof.
  destruct (render_lines_total pal use_unicode colorize flip ascii_lines)
    as (rows & labels & Erows & Elines & Eboard).
  destruct (mapM_total (render_row pal use_unicode colorize flip)
              (board_rows_of flip ascii_lines)
              (render_row_total pal use_unicode colorize flip))
    as (rows' & Erows' & Hlen & Hnth).
  assert (rows' = rows) as -> by congruence.
  exists (rows ++ [labels])%list. split; [exact Elines|]. split; [exact Eboard|].
  split.
  - rewrite length_app. cbn [length]. lia.
  - intros i raw Hi Hshort. destruct (Hnth i raw Hi) as (line & Eline & Hline).
    rewrite (render_row_short _ _ _ _ _ Hshort) in Eline. injection Eline as <-.
    rewrite nth_error_app1 by (apply nth_error_Some; congruence).
    exact Hline.
Qed.

Lemma malformed_row_passthrough_witness :
  render_board colorama true true false ["8 r n b"; "garbage"; "  a b c d e f g h"]
  = Ok (join NL ["8 r n b"; "garbage"; "  a b c d e f g h"; default_labels]).
Proof.
  destruct (malformed_row_passthrough colorama true true false
              ["8 r n b"; "garbage"; "  a b c d e f g h"])
    as (out & E & Eboard & _ & _).
  rewrite Eboard. injection E as <-. reflexivity.
Defined.

(** C7 (amended): without unicode the symbol of a cell is the raw piece
    token, except that the empty-square marker [.] is shown as a blank;
    colour styling is dropped when [colorize] is off (the cell is the
    symbol between two spaces) and applied when it is on. *)
Theorem plain_cell_rendering pal flip rank file_index piece :
  cell_symbol false piece = plain_symbol piece
  /\ (piece <> "." -> cell_symbol false piece = piece)
  /\ cell_symbol false "." = " "
  /\ render_cell pal false false flip rank (file_index, piece)
     = Ok (" " ++ plain_symbol piece ++ " ")
  /\ exists n,
       rank_number rank = Ok n
       /\ render_cell pal false true flip rank (file_index, piece)
          = Ok (cell_bg pal true (dark flip file_index n) ++ cell_fg pal piece
                ++ " " ++ plain_symbol piece ++ " " ++ Style_RESET_ALL pal).
Proof.
  destruct (rank_number_total rank) as [n En].
  split; [reflexivity|]. split.
  { intros Hne. unfold cell_symbol.
    destruct (String.eqb_spec piece "."); [contradiction | reflexivity]. }
  split; [reflexivity|]. split.
  - now rewrite (render_cell_Ok _ _ _ _ _ n) by exact En.
  - exists n. split; [exact En|].
    now rewrite (render_cell_Ok _ _ _ _ _ n) by exact En.
Qed.

(** C7 as stated fails: in plain mode the empty-square marker is not shown
    unchanged, and with [colorize] on the cell is styled. *)
Lemma plain_cell_counterexample :
  render_row Dummy false false false "4 . . . . P . . ."
  = Ok "4              P          "
  /\ render_cell colorama false false false "4" (0, ".") <> Ok " . "
  /\ has_escape
       (match render_cell colorama false true false "4" (4, "P") with
        | Ok cell => cell
        | Raise _ => ""
        end) = true
  /\ ~ (forall piece, cell_symbol false piece = piece).
Proof.
  split; [reflexivity|]. split; [discriminate|]. split; [reflexivity|].
  intros H. specialize (H "."). discriminate H.
Qed.

(** ** ProtocolReader *)

Lemma read_frame_app n frame rest acc :
  Forall nonempty frame ->
  length frame = n \/ ((length frame < n)%nat /\ rest = []) ->
  read_frame n (frame ++ rest) acc = (acc ++ unwire frame, rest)%list.
Proof.
  intros Hne. revert n acc.
  induction Hne as [|l frame Hl _ IH]; intros n acc Hn.
  - cbn [app unwire map]. rewrite app_nil_r.
    destruct Hn as [<- | [Hlt ->]]; [reflexivity|].
    destruct n; [cbn in Hlt; lia | reflexivity].
  - cbn [length] in Hn. destruct n as [|n]; [lia|].
    assert (Hn' : length frame = n \/ ((length frame < n)%nat /\ rest = [])).
    { destruct Hn as [Hn | [Hn ->]]; [left; lia | right; split; [lia | reflexivity]]. }
    cbn [app read_frame readline]. destruct l as [|c l]; [now destruct Hl|].
    cbn [is_empty]. rewrite (IH _ _ Hn').
    cbn [unwire map]. now rewrite <- app_assoc.
Qed.

Lemma marker_nonempty marker : rstrip marker NLCR = "BOARD" -> is_empty marker = false.
Proof. destruct marker; [discriminate | reflexivity]. Qed.

(** How one pass of the reader treats a board frame: [frame] holds the raw
    lines read after the marker, nine of them or fewer when the stream
    ends first. *)
Lemma read_body_board pal w marker frame rest :
  inbound w = marker :: frame ++ rest ->
  rstrip marker NLCR = "BOARD" ->
  Forall nonempty frame ->
  length frame = 9%nat \/ ((length frame < 9)%nat /\ rest = []) ->
  exists rendered,
    (if ascii_only (state w) then Ok (join NL (unwire frame))
     else render_board pal true true (flip_of (state w)) (unwire frame))
    = Ok rendered
    /\ read_body pal w
       = Ok {| inbound := rest;
               state := {| player_color := player_color (state w);
                           last_board := Some rendered;
                           ascii_only := ascii_only (state w) |};
               stop_event := stop_event w;
               trace := trace w ++ [ClearScreen; Print rendered] |}.
Proof.
  intros Hin Hmarker Hne Hlen.
  assert (Hrendered : exists rendered,
            (if ascii_only (state w) then Ok (join NL (unwire frame))
             else render_board pal true true (flip_of (state w)) (unwire frame))
            = Ok rendered).
  { destruct (ascii_only (state w)); [eexists; reflexivity|].
    destruct (render_lines_total pal true true (flip_of (state w)) (unwire frame))
      as (rows & labels & _ & _ & E).
    eauto. }
  destruct Hrendered as [rendered E]. exists rendered. split; [exact E|].
  unfold read_body. rewrite Hin. cbn [readline].
  rewrite (marker_nonempty _ Hmarker), Hmarker. cbn [String.eqb Ascii.eqb Bool.eqb andb].
  rewrite (read_frame_app 9 frame rest []) by assumption.
  cbn [app]. rewrite E. reflexivity.
Qed.

Ltac break_ifs :=
  repeat match goal with
         | |- context [if ?b then _ else _] => destruct b eqn:?
         | |- context [bind ?m _] => destruct m as [? | ?]; cbn [bind]
         end.

Lemma split1_snd_prefix line prefix :
  startswith line prefix = true -> char_in " " prefix = true ->
  exists key, split1_snd line = Ok key.
Proof.
  revert line. induction prefix as [|a prefix IH]; intros line Hs Hc; [discriminate Hc|].
  destruct line as [|b line]; [discriminate Hs|].
  cbn [startswith] in Hs. apply andb_true_iff in Hs as [Hab Hs].
  apply Ascii.eqb_eq in Hab as <-.
  cbn [split1_snd char_in] in *. rewrite Ascii.eqb_sym in Hc.
  destruct (Ascii.eqb a " "); [eauto | now apply IH].
Qed.

Lemma read_frame_length n inb acc :
  (length (snd (read_frame n inb acc)) <= length inb)%nat.
Proof.
  revert inb acc. induction n as [|n IH]; intros inb acc; [cbn; lia|].
  cbn [read_frame]. destruct inb as [|l inb]; [cbn; lia|].
  cbn [readline]. destruct (is_empty l); cbn [snd length]; [lia|].
  specialize (IH inb (acc ++ [rstrip l NLCR])%list). lia.
Qed.

(** One pass of the reader raises nothing, whatever the server sends, and
    either stops the reader or consumes input. *)
Lemma read_body_total pal w :
  exists w', read_body pal w = Ok w'
             /\ (stop_event w' = true
                 \/ (length (inbound w') < length (inbound w))%nat).
Proof.
  unfold read_body. destruct (inbound w) as [|l rest]; cbn [readline].
  { eexists. split; [reflexivity | now left]. }
  destruct (is_empty l); [eexists; split; [reflexivity | now left]|].
  destruct (String.eqb (rstrip l NLCR) "BOARD").
  { pose proof (read_frame_length 9 rest []) as Hlen.
    destruct (read_frame 9 rest []) as [board_lines rest']. cbn [snd] in Hlen.
    assert (Hr : exists rendered,
              (if ascii_only (state w) then Ok (join NL board_lines)
               else render_board pal true true (flip_of (state w)) board_lines)
              = Ok rendered).
    { destruct (ascii_only (state w)); [eexists; reflexivity|].
      destruct (render_lines_total pal true true (flip_of (state w)) board_lines)
        as (rows & labels & _ & _ & E).
      eauto. }
    destruct Hr as [rendered ->]. eexists. split; [reflexivity|].
    right. cbn [inbound length]. lia. }
  destruct (startswith (rstrip l NLCR) "ROOM ") eqn:E1.
  { destruct (split1_snd_prefix _ _ E1 eq_refl) as [key ->].
    eexists. split; [reflexivity | right; cbn; lia]. }
  destruct (startswith (rstrip l NLCR) "QUEUE ");
    [eexists; split; [reflexivity | right; cbn; lia]|].
  destruct (startswith (rstrip l NLCR) "ROOM_EXPIRED ") eqn:E2.
  { destruct (split1_snd_prefix _ _ E2 eq_refl) as [key ->].
    eexists. split; [reflexivity | right; cbn; lia]. }
  destruct (startswith (rstrip l NLCR) "CANCELLED ") eqn:E3.
  { destruct (split1_snd_prefix _ _ E3 eq_refl) as [key ->].
    eexists. split; [reflexivity | right; cbn; lia]. }
  destruct (startswith (rstrip l NLCR) "START ").
  { assert (Hc : exists color,
              (if 2 <=? Z.of_nat (length (split (rstrip l NLCR)))
               then c <- list_getitem (split (rstrip l NLCR)) 1 ;; Ok (Some (upper c))
               else Ok (player_color (state w))) = Ok color).
    { destruct (Z.leb_spec 2 (Z.of_nat (length (split (rstrip l NLCR)))))
        as [Hge|_]; [|eauto].
      destruct (split (rstrip l NLCR)) as [|p0 [|p1 parts]];
        [cbn in Hge; lia | cbn in Hge; lia | eexists; reflexivity]. }
    destruct Hc as [color ->].
    eexists. split; [reflexivity | right; cbn; lia]. }
  break_ifs; eexists; (split; [reflexivity | right; cbn; lia]).
Qed.

(** C1 (amended): after the marker line the reader consumes the next nine
    raw lines as the snapshot whatever they contain (the player colour is
    untouched and nothing but the screen clear and the board is printed);
    when the stream ends first it consumes what is left, raises nothing,
    and renders, stores as last board and prints that partial frame just
    as it does a complete one. *)
Theorem board_frame_buffering pal w marker frame rest :
  stop_event w = false ->
  inbound w = marker :: frame ++ rest ->
  rstrip marker NLCR = "BOARD" ->
  Forall nonempty frame ->
  length frame = 9%nat \/ ((length frame < 9)%nat /\ rest = []) ->
  exists rendered,
    (if ascii_only (state w) then Ok (join NL (unwire frame))
     else render_board pal true true (flip_of (state w)) (unwire frame))
    = Ok rendered
    /\ reader_step pal w
       = {| inbound := rest;
            state := {| player_color := player_color (state w);
                        last_board := Some rendered;
                        ascii_only := ascii_only (state w) |};
            stop_event := false;
            trace := trace w ++ [ClearScreen; Print rendered] |}.
Proof.
  intros Hstop Hin Hmarker Hne Hlen.
  destruct (read_body_board pal w marker frame rest Hin Hmarker Hne Hlen)
    as (rendered & E & Ebody).
  exists rendered. split; [exact E|].
  unfold reader_step. now rewrite Ebody, Hstop.
Qed.

Lemma board_frame_buffering_witness :
  exists rendered,
    reader_step Dummy (connect (wire ("BOARD" :: event_like_frame ++ ["YOURMOVE"])))
    = {| inbound := wire ["YOURMOVE"];
         state := {| player_color := None;
                     last_board := Some rendered;
                     ascii_only := false |};
         stop_event := false;
         trace := [ClearScreen; Print rendered] |}.
Proof.
  destruct (board_frame_buffering Dummy
              (connect (wire ("BOARD" :: event_like_frame ++ ["YOURMOVE"])))
              ("BOARD" ++ NL) (wire event_like_frame) (wire ["YOURMOVE"]))
    as (rendered & _ & E).
  - reflexivity.
  - reflexivity.
  - reflexivity.
  - repeat constructor; discriminate.
  - left. reflexivity.
  - exists rendered. exact E.
Defined.

(** C1 as stated fails: a frame cut short by the end of the stream is
    stored as the last board and printed, and a later redraw prints it
    again. *)
Lemma truncated_frame_counterexample :
  let w := reader_step Dummy (connect truncated_stream) in
  last_board (state w) = Some partial_board
  /\ trace w = [ClearScreen; Print partial_board]
  /\ stop_event w = false
  /\ trace (user_step Dummy "redraw" w)
     = [ClearScreen; Print partial_board; Print partial_board].
Proof. repeat split. Qed.

Lemma read_frame_suffix (P : string -> Prop) n inb acc :
  Forall P inb -> Forall P (snd (read_frame n inb acc)).
Proof.
  revert inb acc. induction n as [|n IH]; intros inb acc H; [exact H|].
  cbn [read_frame]. destruct H as [|l inb Hl H]; [constructor|].
  cbn [readline]. destruct (is_empty l); [exact H | now apply IH].
Qed.

(** Handling a line touches neither the inbound stream, nor the colour,
    nor the last board, nor the stop signal. *)
Lemma handle_line_keeps pal raw w w' ctl :
  handle_line pal raw w = Ok (w', ctl) ->
  inbound w' = inbound w
  /\ player_color (state w') = player_color (state w)
  /\ last_board (state w') = last_board (state w)
  /\ stop_event w' = stop_event w.
Proof.
  unfold handle_line.
  destruct (is_empty (strip raw)); [now intros [= <- <-]|].
  destruct (_ || _); [now intros [= <- <-]|].
  destruct (negb _ && _); [now intros [= <- <-]|].
  destruct (String.eqb (lower (strip raw)) "unicode"); [now intros [= <- <-]|].
  destruct (String.eqb (lower (strip raw)) "redraw"); [now intros [= <- <-]|].
  destruct (negb _); cbn [bind]; [|now intros [= <- <-]].
  destruct (parse_algebraic (strip raw)) as [[[|c p]|]|e]; cbn [bind];
    try discriminate; now intros [= <- <-].
Qed.

(** The command loop touches neither the inbound stream nor the colour. *)
Lemma user_step_keeps pal raw w :
  inbound (user_step pal raw w) = inbound w
  /\ player_color (state (user_step pal raw w)) = player_color (state w).
Proof.
  unfold user_step.
  destruct (handle_line pal raw w) as [[w' ctl]|e] eqn:E; [|now split].
  destruct (handle_line_keeps pal raw w w' ctl E) as (Hi & Hc & _).
  destruct ctl; [destruct (stop_event w')|]; now split.
Qed.

(** While no START line is dispatched the colour stays unknown. *)
Lemma reader_step_keeps_unknown pal w :
  player_color (state w) = None -> Forall not_start (inbound w) ->
  player_color (state (reader_step pal w)) = None
  /\ Forall not_start (inbound (reader_step pal w)).
Proof.
  intros Hc Hin. unfold reader_step, reader_except.
  unfold read_body. destruct Hin as [|l rest Hl Hrest]; [now split|].
  cbn [readline]. destruct (is_empty l); [now split|].
  destruct (String.eqb (rstrip l NLCR) "BOARD").
  { pose proof (read_frame_suffix not_start 9 rest [] Hrest) as Hsuf.
    destruct (read_frame 9 rest []) as [board_lines rest'].
    destruct (if ascii_only (state w) then _ else _); cbn [bind];
      split; trivial. now constructor. }
  unfold not_start in Hl. rewrite Hl.
  break_ifs; cbn; split; trivial; now constructor.
Qed.

Lemma step_keeps_unknown pal c ev :
  player_color (state (session c)) = None ->
  Forall not_start (inbound (session c)) ->
  player_color (state (session (step pal c ev))) = None
  /\ Forall not_start (inbound (session (step pal c ev))).
Proof.
  intros Hc Hin. destruct ev as [|raw|]; cbn [step].
  - destruct (reader_waiting c); [|now split]. cbn [session].
    destruct (main_waiting c).
    + unfold reader_pass. destruct (read_fault c) as [message|].
      * destruct (runs_out (inbound (session c)));
          [now split | now apply reader_step_keeps_unknown].
      * now apply reader_step_keeps_unknown.
    + now apply reader_step_keeps_unknown.
  - destruct (main_waiting c); [|now split]. cbn [session].
    destruct (user_step_keeps pal raw (session c)) as [-> ->]. now split.
  - destruct (main_waiting c); now split.
Qed.

Lemma run_client_keeps_unknown pal evs c :
  player_color (state (session c)) = None ->
  Forall not_start (inbound (session c)) ->
  player_color (state (session (run_client pal evs c))) = None.
Proof.
  unfold run_client. revert c.
  induction evs as [|ev evs IH]; intros c Hc Hin; [exact Hc|].
  cbn [fold_left]. destruct (step_keeps_unknown pal c ev Hc Hin). now apply IH.
Qed.

Lemma run_keeps_unknown pal evs w :
  player_color (state w) = None -> Forall not_start (inbound w) ->
  player_color (state (run pal evs w)) = None.
Proof. intros Hc Hin. now apply run_client_keeps_unknown. Qed.

(** C10: with no player colour stored the reader renders a board frame
    with [flip = False]; and the colour stays unknown, so no frame is
    flipped, however the two loops run, as long as no inbound line is a
    START line. *)
Theorem unknown_colour_not_flipped pal w marker frame rest :
  player_color (state w) = None ->
  stop_event w = false ->
  inbound w = marker :: frame ++ rest ->
  rstrip marker NLCR = "BOARD" ->
  Forall nonempty frame ->
  length frame = 9%nat \/ ((length frame < 9)%nat /\ rest = []) ->
  flip_of (state w) = false
  /\ (exists rendered,
        (if ascii_only (state w) then Ok (join NL (unwire frame))
         else render_board pal true true false (unwire frame)) = Ok rendered
        /\ reader_step pal w
           = {| inbound := rest;
                state := {| player_color := None;
                            last_board := Some rendered;
                            ascii_only := ascii_only (state w) |};
                stop_event := false;
                trace := trace w ++ [ClearScreen; Print rendered] |})
  /\ (forall evs,
        Forall not_start (inbound w) ->
        flip_of (state (run pal evs w)) = false).
Proof.
  intros Hc Hstop Hin Hmarker Hne Hlen.
  assert (Hflip : flip_of (state w) = false) by (unfold flip_of; now rewrite Hc).
  split; [exact Hflip|]. split.
  - destruct (read_body_board pal w marker frame rest Hin Hmarker Hne Hlen)
      as (rendered & E & Ebody).
    rewrite Hflip in E. exists rendered. split; [exact E|].
    unfold reader_step. now rewrite Ebody, Hstop, Hc.
  - intros evs Hns. unfold flip_of.
    now rewrite (run_keeps_unknown pal evs w Hc Hns).
Qed.

Lemma unknown_colour_not_flipped_witness :
  exists rendered,
    render_board colorama true true false start_position = Ok rendered
    /\ last_board (state (reader_step colorama
                            (connect (wire ("BOARD" :: start_position)))))
       = Some rendered.
Proof.
  destruct (unknown_colour_not_flipped colorama
              (connect (wire ("BOARD" :: start_position)))
              ("BOARD" ++ NL) (wire start_position) [])
    as (_ & (rendered & E & Estep) & _).
  - reflexivity.
  - reflexivity.
  - reflexivity.
  - reflexivity.
  - repeat constructor; discriminate.
  - left. reflexivity.
  - exists rendered. split; [exact E|]. now rewrite Estep.
Defined.

(** ** Command loop *)

(** [redraw] prints the stored rendering as it is, whatever the display
    mode has become since it was stored. *)
Lemma redraw_prints_last_board pal w :
  stop_event w = false -> has_board (state w) = true ->
  user_step pal "redraw" w
  = {| inbound := inbound w; state := state w; stop_event := false;
       trace := trace w ++ [Print (board_text (state w))] |}.
Proof.
  intros Hstop Hb. unfold user_step.
  change (handle_line pal "redraw" w)
    with (Ok (emit w (inbound w)
                [if has_board (state w) then Print (board_text (state w))
                 else Print "[no board yet]"], Continue)).
  rewrite Hb. unfold emit. now rewrite Hstop.
Qed.

(** C8: after a coloured board has been shown, [ascii] followed by
    [redraw] prints the stored coloured rendering: the text printed last
    is the last board and it still holds escape sequences, while the text
    printed by [ascii] itself had its escape characters removed. *)
Theorem redraw_after_ascii_keeps_escapes :
  ascii_only (state ascii_then_redraw) = true
  /\ exists board,
       render_board colorama true true false start_position = Ok board
       /\ last_board (state ascii_then_redraw) = Some board
       /\ trace ascii_then_redraw
          = [ ClearScreen; Print board;
              Print (tint colorama (Fore_YELLOW colorama)
                       "[display] switched to plain ASCII");
              Print (remove_char ESC board);
              Print board ]
       /\ has_escape board = true
       /\ has_escape (remove_char ESC board) = false.
Proof.
  split; [reflexivity|].
  destruct (render_board colorama true true false start_position) as [board|e] eqn:E;
    [|vm_compute in E; discriminate E].
  exists board. vm_compute in E. injection E as <-.
  repeat split; vm_compute; reflexivity.
Qed.

Lemma eqb_not_in (s : string) l a : ~ In s l -> In a l -> String.eqb s a = false.
Proof.
  intros Hn Ha. destruct (String.eqb_spec s a) as [->|]; [contradiction | reflexivity].
Qed.

(** C9 (amended): a non-empty line that is not a local command and that
    the normalizer cannot parse is always written to the server as typed;
    whether it resembles a move (holds one of a-h or 1-8, in either case)
    only decides whether the hint is printed first. *)
Theorem unparseable_text_forwarded pal w raw :
  let line := strip raw in
  line <> "" ->
  ~ In (lower line) local_commands ->
  parse_algebraic line = Ok None ->
  handle_line pal raw w
  = Ok (emit w (inbound w)
          ((if negb (sent_verbatim line) && looks_like_move line
            then [Print (tint pal (Fore_YELLOW pal) hint)] else [])
           ++ [Send (line ++ NL)]),
        Continue).
Proof.
  cbv zeta. unfold handle_line. generalize (strip raw).
  intros line Hne Hlocal Hparse.
  destruct line as [|c l]; [congruence|]. cbn [is_empty].
  set (line := String c l) in *.
  assert (Hcmd : forall a, In a local_commands -> String.eqb (lower line) a = false).
  { intros a. now apply eqb_not_in. }
  rewrite !Hcmd by (cbn; tauto). cbn [orb andb negb].
  unfold sent_verbatim.
  destruct (startswith (upper line) "MOVE " || startswith (upper line) "NAME "
            || String.eqb (upper line) "FF"); cbn [negb andb bind].
  - reflexivity.
  - rewrite Hparse. cbn [bind]. now destruct (looks_like_move _).
Qed.

Lemma unparseable_text_forwarded_witness :
  handle_line Dummy " Nc3 " (connect [])
  = Ok (emit (connect []) []
          [Print (tint Dummy (Fore_YELLOW Dummy) hint); Send ("Nc3" ++ NL)],
        Continue).
Proof.
  apply (unparseable_text_forwarded Dummy (connect []) " Nc3 ").
  - discriminate.
  - cbn. intuition discriminate.
  - reflexivity.
Defined.

(** C9 as stated fails: zzz is no local command, is unparseable and holds
    no file letter or rank digit, and it is sent all the same. *)
Lemma silent_text_counterexample :
  parse_algebraic "zzz" = Ok None
  /\ looks_like_move "zzz" = false
  /\ trace (user_step Dummy "zzz" (connect [])) = [Send ("zzz" ++ NL)].
Proof. repeat split. Qed.

(** * Further properties *)

(** ** Python primitives, continued *)

Lemma rstrip_by_idem p s : rstrip_by p (rstrip_by p s) = rstrip_by p s.
Proof.
  induction s as [|c s IH]; [reflexivity|]. cbn [rstrip_by].
  destruct (p c && is_empty (rstrip_by p s)) eqn:E; [reflexivity|].
  cbn [rstrip_by]. now rewrite IH, E.
Qed.

Lemma lstrip_by_rstrip_by p s :
  lstrip_by p (rstrip_by p (lstrip_by p s)) = rstrip_by p (lstrip_by p s).
Proof.
  induction s as [|c s IH]; [reflexivity|]. cbn [lstrip_by].
  destruct (p c) eqn:Ec; [exact IH|].
  cbn [rstrip_by]. rewrite Ec. cbn [andb lstrip_by]. now rewrite Ec.
Qed.

Lemma strip_idem s : strip (strip s) = strip s.
Proof. unfold strip. now rewrite lstrip_by_rstrip_by, rstrip_by_idem. Qed.

Lemma get_in_range s n : (n < String.length s)%nat -> exists c, String.get n s = Some c.
Proof.
  revert n. induction s as [|d s IH]; intros n Hn; [cbn in Hn; lia|].
  destruct n as [|n]; [now exists d|]. cbn [String.get]. apply IH. cbn in Hn. lia.
Qed.

(** Indexing within bounds, from either end, raises nothing. *)
Lemma getitem_in_range s i :
  - len s <= i < len s -> exists c, getitem s i = Ok c.
Proof.
  intros Hi. unfold getitem, len in *.
  set (j := if i <? 0 then i + Z.of_nat (String.length s) else i).
  assert (Hj : 0 <= j < Z.of_nat (String.length s)).
  { unfold j. destruct (Z.ltb_spec i 0); lia. }
  destruct (Z.ltb_spec j 0); [lia|].
  destruct (get_in_range s (Z.to_nat j)) as [c ->]; [lia | eauto].
Qed.

Lemma item_in_in_range s i set :
  - len s <= i < len s -> exists b, item_in s i set = Ok b.
Proof.
  intros Hi. unfold item_in. destruct (getitem_in_range s i Hi) as [c ->].
  cbn [bind]. eauto.
Qed.

Lemma len_append s t : len (s ++ t) = len s + len t.
Proof.
  induction s as [|c s IH]; [cbn; unfold len; lia|].
  cbn [append]. rewrite !len_cons, IH. lia.
Qed.

Lemma get_append_length s t : String.get (String.length s) (s ++ t) = String.get 0 t.
Proof. induction s as [|c s IH]; [reflexivity | exact IH]. Qed.

Lemma get_append_S_length s c t :
  String.get (S (String.length s)) (s ++ String c t) = String.get 0 t.
Proof. induction s as [|d s IH]; [reflexivity | exact IH]. Qed.

Lemma drop_append_length s t : drop (String.length s) (s ++ t) = t.
Proof. induction s as [|c s IH]; [reflexivity | exact IH]. Qed.

Lemma take_append_length s t : take (String.length s) (s ++ t) = s.
Proof. induction s as [|c s IH]; [now destruct t | cbn; now rewrite IH]. Qed.

Lemma length_append2 s f r :
  String.length (s ++ String f (String r "")) = S (S (String.length s)).
Proof. induction s as [|c s IH]; [reflexivity | cbn; now rewrite IH]. Qed.

(** The last two characters of a text and what precedes them. *)
Lemma split_last_two s :
  2 <= len s -> exists pre f r, s = pre ++ String f (String r "").
Proof.
  induction s as [|c s IH]; intros H; [cbn in H; lia|].
  destruct s as [|d s]; [cbn in H; lia|].
  destruct s as [|e s].
  - now exists "", c, d.
  - destruct IH as (pre & f & r & E).
    { rewrite !len_cons. pose proof (len_nonneg s). lia. }
    exists (String c pre), f, r. cbn [append]. now rewrite <- E.
Qed.

Section LastTwo.

Variables (pre : string) (f r : ascii).

Let s : string := pre ++ String f (String r "").

Lemma getitem_last_two : getitem s (-2) = Ok f /\ getitem s (-1) = Ok r.
Proof.
  unfold getitem, s. rewrite len_append.
  change (len (String f (String r ""))) with 2.
  change (-2 <? 0) with true. change (-1 <? 0) with true. cbv iota.
  pose proof (len_nonneg pre) as Hpre. split.
  - destruct (Z.ltb_spec (-2 + (len pre + 2)) 0); [lia|].
    replace (Z.to_nat (-2 + (len pre + 2))) with (String.length pre)
      by (unfold len; lia).
    now rewrite get_append_length.
  - destruct (Z.ltb_spec (-1 + (len pre + 2)) 0); [lia|].
    replace (Z.to_nat (-1 + (len pre + 2))) with (S (String.length pre))
      by (unfold len; lia).
    now rewrite get_append_S_length.
Qed.

Lemma slices_last_two :
  slice_from_neg s 2 = String f (String r "") /\ slice_to_neg s 2 = pre.
Proof.
  unfold slice_from_neg, slice_to_neg, s. rewrite length_append2.
  cbn [Nat.sub]. rewrite Nat.sub_0_r.
  now rewrite drop_append_length, take_append_length.
Qed.

End LastTwo.

(** ** NotationNormalizer, continued *)

(** The test shared by the pawn rule and the full-disambiguation rule: it
    raises nothing, and holds only of a file letter followed by a rank
    digit. *)
Lemma square_test m :
  exists b,
    (Ok (len m =? 2) &&& item_in m 0 files &&& item_in m 1 ranks) = Ok b
    /\ (b = true ->
        exists f r, m = String f (String r "")
                    /\ char_in f files = true /\ char_in r ranks = true).
Proof.
  destruct m as [|f [|r [|x m]]].
  - exists false. split; [reflexivity | discriminate].
  - exists false. split; [reflexivity | discriminate].
  - exists (char_in f files && char_in r ranks).
    change (len (String f (String r "")) =? 2) with true.
    autorewrite with py. split.
    + destruct (char_in f files); reflexivity.
    + intros [Hf Hr]%andb_true_iff. now exists f, r.
  - exists false. split; [|discriminate].
    replace (len (String f (String r (String x m))) =? 2) with false; [reflexivity|].
    symmetry. apply Z.eqb_neq. rewrite !len_cons. pose proof (len_nonneg m). lia.
Qed.

(** The destination test: it raises nothing, and holds only of text that
    ends in a file letter followed by a rank digit. *)
Lemma dest_test rest :
  exists b,
    (Ok (2 <=? len rest) &&& item_in rest (-2) files &&& item_in rest (-1) ranks)
    = Ok b
    /\ (b = true ->
        exists pre f r, rest = pre ++ String f (String r "")
                        /\ char_in f files = true /\ char_in r ranks = true).
Proof.
  destruct (Z.leb_spec 2 (len rest)) as [Hge | Hlt].
  - destruct (split_last_two rest Hge) as (pre & f & r & ->).
    destruct (getitem_last_two pre f r) as [E2 E1].
    unfold item_in. rewrite E2, E1. cbn [bind].
    exists (char_in f files && char_in r ranks). split.
    + autorewrite with py. destruct (char_in f files); reflexivity.
    + intros [Hf Hr]%andb_true_iff. now exists pre, f, r.
  - exists false. split; [reflexivity | discriminate].
Qed.

Lemma start_rank_is_rank r : char_in (start_rank r) ranks = true.
Proof.
  unfold start_rank. destruct (char_in r "34"); [reflexivity|].
  destruct (char_in r "56"); reflexivity.
Qed.

(** What the pawn and piece rules can return on non-empty text: nothing is
    raised, and a move is always file, rank, file, rank. *)
Lemma parse_unmarked_result c m :
  exists result,
    parse_unmarked (String c m) = Ok result
    /\ forall out, result = Some out ->
         exists f1 r1 f2 r2,
           out = String f1 (String r1 (String f2 (String r2 "")))
           /\ char_in f1 files = true /\ char_in r1 ranks = true
           /\ char_in f2 files = true /\ char_in r2 ranks = true.
Proof.
  unfold parse_unmarked.
  destruct (square_test (String c m)) as (pawn & -> & Hpawn). cbn [bind].
  destruct pawn.
  { destruct (Hpawn eq_refl) as (f & r & E & Hf & Hr). injection E as -> ->.
    autorewrite with py. eexists. split; [reflexivity|].
    intros out [= <-]. exists f, (start_rank r), f, r.
    auto using start_rank_is_rank. }
  rewrite getitem_0. cbn [bind].
  destruct (char_in (upper_char c) piece_chars);
    [|eexists; split; [reflexivity | discriminate]].
  cbv zeta.
  destruct (dest_test (slice_from (String c m) 1)) as (has_dest & -> & Hdest).
  cbn [bind].
  destruct has_dest; [|eexists; split; [reflexivity | discriminate]].
  destruct (Hdest eq_refl) as (pre & f & r & Erest & Hf & Hr). rewrite Erest.
  destruct (slices_last_two pre f r) as [-> ->].
  match goal with
  | |- context [bind (?t &&& _ &&& _) _] =>
      match t with
      | Ok (len ?d =? 2) => destruct (square_test d) as (full & -> & Hfull)
      end
  end.
  cbn [bind].
  destruct full; [|eexists; split; [reflexivity | discriminate]].
  destruct (Hfull eq_refl) as (s1 & s2 & Ed & H1 & H2). rewrite Ed.
  eexists. split; [reflexivity|].
  intros out [= <-]. now exists s1, s2, f, r.
Qed.

Lemma is_coordinate_result t :
  exists b,
    is_coordinate t = Ok b
    /\ (b = true ->
        exists f1 r1 f2 c rest,
          t = String f1 (String r1 (String f2 (String c rest)))
          /\ char_in f1 files = true /\ char_in r1 ranks = true
          /\ char_in f2 files = true).
Proof.
  destruct t as [|f1 [|r1 [|f2 [|c rest]]]];
    try (exists false; split; [reflexivity | discriminate]).
  rewrite is_coordinate_4. eexists. split; [reflexivity|].
  intros [[H1 H2]%andb_true_iff H3]%andb_true_iff.
  now exists f1, r1, f2, c, rest.
Qed.

(** X1: [parse_algebraic] raises exactly on text that is not blank but
    holds nothing besides capture, check, mate and promotion marks (x, +,
    #, =Q and the like): the exception is the [IndexError] of indexing the
    emptied text. *)
Theorem parse_raises_iff s e :
  parse_algebraic s = Raise e
  <-> e = IndexError /\ strip s <> "" /\ remove_marks (strip s) = "".
Proof.
  unfold parse_algebraic.
  destruct (is_coordinate_result (strip s)) as (coord & Ecoord & Hcoord).
  destruct (strip s) as [|c t] eqn:Et.
  { cbn [is_empty]. split; [discriminate | intros (_ & H & _); now destruct H]. }
  cbn [is_empty]. rewrite Ecoord. cbn [bind]. destruct coord.
  - split; [discriminate|]. intros (_ & _ & Hm).
    destruct (Hcoord eq_refl) as (f1 & r1 & f2 & c' & rest & E & H1 & _).
    rewrite E, remove_marks_keep in Hm by auto using file_not_mark.
    discriminate Hm.
  - destruct (remove_marks (String c t)) as [|c' m] eqn:Em.
    + split; [intros [= <-]; repeat split; discriminate | now intros (-> & _)].
    + destruct (parse_unmarked_result c' m) as (result & -> & _).
      split; [discriminate | intros (_ & _ & H); discriminate H].
Qed.

(** X2: a move returned by [parse_algebraic] has at least four characters,
    begins with a file letter, a rank digit and a file letter, and carries
    no surrounding whitespace. *)
Theorem parse_result_coordinate s m :
  parse_algebraic s = Ok (Some m) ->
  trimmed m
  /\ exists f1 r1 f2 c rest,
       m = String f1 (String r1 (String f2 (String c rest)))
       /\ char_in f1 files = true /\ char_in r1 ranks = true
       /\ char_in f2 files = true.
Proof.
  unfold parse_algebraic, trimmed.
  destruct (is_coordinate_result (strip s)) as (coord & Ecoord & Hcoord).
  destruct (strip s) as [|c t] eqn:Et; [discriminate|].
  cbn [is_empty]. rewrite Ecoord. cbn [bind]. destruct coord.
  - intros [= <-]. split; [rewrite <- Et; apply strip_idem | now apply Hcoord].
  - destruct (remove_marks (String c t)) as [|c' u]; [discriminate|].
    destruct (parse_unmarked_result c' u) as (result & -> & Hres).
    intros [= ->].
    destruct (Hres m eq_refl) as (f1 & r1 & f2 & r2 & -> & H1 & H2 & H3 & H4).
    split.
    + apply (strip_id f1 (String r1 (String f2 "")) r2);
        auto using file_not_space, rank_not_space.
    + now exists f1, r1, f2, r2, "".
Qed.

Lemma parse_result_coordinate_witness :
  trimmed "d1h5"
  /\ exists f1 r1 f2 c rest,
       "d1h5" = String f1 (String r1 (String f2 (String c rest)))
       /\ char_in f1 files = true /\ char_in r1 ranks = true
       /\ char_in f2 files = true.
Proof. apply (parse_result_coordinate " Qd1xh5+ " "d1h5"). reflexivity. Defined.

(** X3: normalizing is idempotent: a move returned by [parse_algebraic] is
    returned unchanged when given to it again. *)
Theorem parse_idempotent s m :
  parse_algebraic s = Ok (Some m) -> parse_algebraic m = Ok (Some m).
Proof.
  intros H. unfold parse_algebraic in H.
  destruct (is_coordinate_result (strip s)) as (coord & Ecoord & Hcoord).
  destruct (strip s) as [|c t] eqn:Et; [discriminate|].
  cbn [is_empty] in H. rewrite Ecoord in H. cbn [bind] in H. destruct coord.
  - injection H as <-.
    destruct (Hcoord eq_refl) as (f1 & r1 & f2 & c' & rest & E & H1 & H2 & H3).
    rewrite E. apply coordinate_prefix_unchanged; trivial.
    rewrite <- E, <- Et. apply strip_idem.
  - destruct (remove_marks (String c t)) as [|c' u]; [discriminate|].
    destruct (parse_unmarked_result c' u) as (result & Eres & Hres).
    rewrite Eres in H. injection H as ->.
    destruct (Hres m eq_refl) as (f1 & r1 & f2 & r2 & -> & H1 & H2 & H3 & H4).
    apply coordinate_prefix_unchanged; trivial.
    apply (strip_id f1 (String r1 (String f2 "")) r2);
      auto using file_not_space, rank_not_space.
Qed.

Lemma parse_idempotent_witness : parse_algebraic "e7e5" = Ok (Some "e7e5").
Proof. apply (parse_idempotent "e5" "e7e5"). reflexivity. Defined.

(** ** BoardRenderer, continued *)

Lemma list_getitem_last_app {A : Type} (l : list A) a :
  list_getitem (l ++ [a]) (-1) = Ok a.
Proof.
  unfold list_getitem. change (-1 <? 0) with true. cbv iota.
  rewrite length_app. cbn [length].
  destruct (Z.ltb_spec (-1 + Z.of_nat (length l + 1)) 0); [lia|].
  replace (Z.to_nat (-1 + Z.of_nat (length l + 1))) with (length l) by lia.
  now rewrite nth_error_app2, Nat.sub_diag by lia.
Qed.

Lemma rank_number_value rank : rank_number rank = Ok (rank_value rank).
Proof.
  unfold rank_number, rank_value. destruct (int rank) as [n|e] eqn:E; [reflexivity|].
  now apply int_raises_ValueError in E as ->.
Qed.

(** A well-formed row renders unflipped as [shown_row] says, and flipped
    as its mirror image. *)
Lemma render_row_mirror pal use_unicode colorize raw :
  well_formed_row raw ->
  render_row pal use_unicode colorize false raw
  = Ok (line_of (shown_row pal use_unicode colorize raw))
  /\ render_row pal use_unicode colorize true raw
     = Ok (line_of (mirror (shown_row pal use_unicode colorize raw))).
Proof.
  intros (rank & pieces & E & Hlen).
  pose proof (rank_number_value rank) as En.
  rewrite !(render_row_parts _ _ _ _ raw rank pieces (rank_value rank))
    by (trivial; lia).
  unfold shown_row, line_of, mirror. rewrite E. cbn [fst snd hd tl].
  do 9 (destruct pieces as [|? pieces]; try discriminate Hlen).
  unfold enumerate, cell_of. cbn [map enumerate_from rev app fst snd].
  rewrite !dark_odd. split; reflexivity.
Qed.

(** X4: on a snapshot of eight well-formed rank rows and a label row, the
    unflipped rendering shows each row in the order received, cell [i]
    styled as file [i]; the flipped rendering is that picture turned half
    a circle: the same rows in reverse order, each with its cells, text
    and styling unchanged, in reverse order, over the reversed file
    labels. *)
Theorem flip_rotates_board pal use_unicode colorize rows labels :
  length rows = 8%nat -> Forall well_formed_row rows ->
  render_lines pal use_unicode colorize false (rows ++ [labels])
  = Ok (map (fun raw => line_of (shown_row pal use_unicode colorize raw)) rows
        ++ [if is_empty (strip labels) then default_labels else labels])%list
  /\ render_lines pal use_unicode colorize true (rows ++ [labels])
     = Ok (map (fun raw => line_of (mirror (shown_row pal use_unicode colorize raw)))
             (rev rows)
           ++ [flipped_labels])%list.
Proof.
  intros Hlen Hrows.
  assert (Hplain : mapM (render_row pal use_unicode colorize false) rows
                   = Ok (map (fun raw => line_of (shown_row pal use_unicode colorize raw))
                           rows)).
  { apply mapM_map. intros raw Hin.
    now apply render_row_mirror, (proj1 (Forall_forall _ _) Hrows). }
  assert (Hflip : mapM (render_row pal use_unicode colorize true) (rev rows)
                  = Ok (map (fun raw =>
                               line_of (mirror (shown_row pal use_unicode colorize raw)))
                          (rev rows))).
  { apply mapM_map. intros raw Hin%in_rev.
    now apply render_row_mirror, (proj1 (Forall_forall _ _) Hrows). }
  split.
  - unfold render_lines, board_rows_of.
    rewrite length_app, Hlen. cbn [length Nat.add Nat.eqb].
    rewrite list_getitem_last_app, removelast_last. cbn [bind].
    rewrite Hplain. cbn [bind]. now destruct (is_empty (strip labels)).
  - unfold render_lines, board_rows_of.
    rewrite length_app, Hlen. cbn [length Nat.add Nat.eqb].
    rewrite list_getitem_last_app, removelast_last. cbn [bind].
    rewrite Hflip. reflexivity.
Qed.

Lemma start_rows_well_formed : Forall well_formed_row (removelast start_position).
Proof.
  cbn [removelast start_position].
  repeat (apply Forall_cons;
          [do 2 eexists; split; [vm_compute; reflexivity | reflexivity]|]).
  apply Forall_nil.
Qed.

Lemma flip_rotates_board_witness :
  render_lines colorama true true true
    (removelast start_position ++ [default_labels])
  = Ok (map (fun raw => line_of (mirror (shown_row colorama true true raw)))
          (rev (removelast start_position))
        ++ [flipped_labels])%list.
Proof.
  exact (proj2 (flip_rotates_board colorama true true
                  (removelast start_position) default_labels
                  eq_refl start_rows_well_formed)).
Defined.

(** X5: the last line of every rendering is the label line: the reversed
    labels when flipped; otherwise the ninth line of a nine-line snapshot
    when it is not blank, and the default labels for a blank ninth line or
    a snapshot of any other length. *)
Theorem label_line_rule pal use_unicode colorize flip ascii_lines out_lines :
  render_lines pal use_unicode colorize flip ascii_lines = Ok out_lines ->
  last out_lines ""
  = if flip then flipped_labels
    else if (length ascii_lines =? 9)%nat
            && negb (is_empty (strip (last ascii_lines "")))
         then last ascii_lines ""
         else default_labels.
Proof.
  unfold render_lines.
  destruct (mapM (render_row pal use_unicode colorize flip)
              (board_rows_of flip ascii_lines)) as [rows|e].
  2:{ destruct (if (length ascii_lines =? 9)%nat then _ else _); discriminate. }
  destruct (Nat.eqb_spec (length ascii_lines) 9) as [E9|_]; cbn [andb].
  - assert (Hne : ascii_lines <> []) by (intros ->; discriminate E9).
    rewrite (app_removelast_last "" Hne) at 1.
    rewrite list_getitem_last_app. cbn [bind]. intros [= <-].
    rewrite last_last. destruct flip; [reflexivity|].
    now destruct (is_empty (strip (last ascii_lines ""))).
  - cbn [bind]. intros [= <-]. rewrite last_last. now destruct flip.
Qed.

Lemma label_line_rule_witness :
  last ["8 r n b"; default_labels] "" = default_labels.
Proof.
  apply (label_line_rule Dummy true false false ["8 r n b"] ["8 r n b"; default_labels]).
  reflexivity.
Defined.

Lemma any_char_append p a b : any_char p (a ++ b) = any_char p a || any_char p b.
Proof.
  induction a as [|c a IH]; [reflexivity|]. cbn. now rewrite IH, orb_assoc.
Qed.

Lemma no_escape_append a b : no_escape a -> no_escape b -> no_escape (a ++ b).
Proof. unfold no_escape, has_escape. intros Ha Hb. now rewrite any_char_append, Ha, Hb. Qed.

Lemma no_escape_join sep l :
  no_escape sep -> Forall no_escape l -> no_escape (join sep l).
Proof.
  intros Hsep Hl. unfold join.
  induction Hl as [|x l Hx Hl IH]; [reflexivity|].
  destruct l as [|y l]; [exact Hx|].
  change (String.concat sep (x :: y :: l))
    with (x ++ sep ++ String.concat sep (y :: l)).
  apply no_escape_append; [exact Hx|].
  apply no_escape_append; [exact Hsep | exact IH].
Qed.

Lemma split_go_no_escape s cur :
  no_escape s -> no_escape cur -> Forall no_escape (split_go s cur).
Proof.
  revert cur. induction s as [|c s IH]; intros cur Hs Hcur; cbn [split_go].
  - destruct (is_empty cur); now repeat constructor.
  - unfold no_escape, has_escape in Hs. cbn [any_char] in Hs.
    apply orb_false_iff in Hs as [Hc Hs].
    destruct (isspace c).
    + destruct (is_empty cur); [|constructor; trivial]; now apply IH.
    + apply IH; trivial. apply no_escape_append; trivial.
      unfold no_escape, has_escape. cbn [any_char]. now rewrite Hc.
Qed.

Lemma split_no_escape raw : no_escape raw -> Forall no_escape (split raw).
Proof. intros H. now apply split_go_no_escape. Qed.

Lemma glyph_no_escape piece glyph :
  dict_get UNICODE_MAP piece = Some glyph -> no_escape glyph.
Proof.
  unfold UNICODE_MAP. cbn [dict_get].
  repeat match goal with
         | |- context [String.eqb piece ?k] => destruct (String.eqb piece k)
         end;
    intros [= <-] || discriminate; reflexivity.
Qed.

Lemma cell_symbol_no_escape use_unicode piece :
  no_escape piece -> no_escape (cell_symbol use_unicode piece).
Proof.
  intros H. unfold cell_symbol.
  destruct (if use_unicode then dict_get UNICODE_MAP piece else None) as [g|] eqn:E.
  - destruct use_unicode; [|discriminate]. now apply (glyph_no_escape piece).
  - now destruct (String.eqb piece ".").
Qed.

Lemma plain_cells_no_escape pal use_unicode flip n i pieces :
  Forall no_escape pieces ->
  Forall no_escape
    (map (cell_of pal use_unicode false flip n) (enumerate_from i pieces)).
Proof.
  intros H. revert i. induction H as [|piece pieces Hp _ IH]; intros i; [constructor|].
  cbn [enumerate_from map]. constructor; [|apply IH].
  unfold cell_of, cell_text. cbn [fst snd].
  repeat apply no_escape_append; try reflexivity.
  now apply cell_symbol_no_escape.
Qed.

Lemma plain_row_no_escape pal use_unicode flip raw line :
  no_escape raw ->
  render_row pal use_unicode false flip raw = Ok line -> no_escape line.
Proof.
  intros Hraw. pose proof (split_no_escape raw Hraw) as Hparts.
  destruct (Z.ltb_spec (Z.of_nat (length (split raw))) 9) as [Hlt | Hge].
  - rewrite render_row_short by exact Hlt. now intros [= <-].
  - destruct (split raw) as [|rank pieces] eqn:E; [cbn in Hge; lia|].
    destruct (rank_number_total rank) as [n En].
    rewrite (render_row_parts _ _ _ flip raw rank pieces n)
      by (trivial; cbn [length] in Hge; lia).
    intros [= <-]. inversion Hparts as [|? ? Hrank Hpieces]; subst.
    repeat apply no_escape_append; trivial; try reflexivity.
    apply no_escape_join; [reflexivity|].
    apply plain_cells_no_escape. destruct flip; [now apply Forall_rev | exact Hpieces].
Qed.

Lemma mapM_Forall {A B : Type} (f : A -> res B) (P : A -> Prop) (Q : B -> Prop) l bs :
  (forall a b, P a -> f a = Ok b -> Q b) ->
  Forall P l -> mapM f l = Ok bs -> Forall Q bs.
Proof.
  intros Hf Hl. revert bs. induction Hl as [|a l Ha _ IH]; intros bs; cbn [mapM].
  - intros [= <-]. constructor.
  - destruct (f a) as [b|] eqn:Eb; [|discriminate]. cbn [bind].
    destruct (mapM f l) as [bs'|]; [|discriminate]. cbn [bind].
    intros [= <-]. constructor; eauto.
Qed.

Lemma Forall_removelast {A : Type} (P : A -> Prop) l :
  Forall P l -> Forall P (removelast l).
Proof.
  induction 1 as [|a l Ha Hl IH]; [constructor|].
  cbn [removelast]. destruct l; [constructor | now constructor].
Qed.

Lemma board_rows_no_escape flip ascii_lines :
  Forall no_escape ascii_lines -> Forall no_escape (board_rows_of flip ascii_lines).
Proof.
  intros H. unfold board_rows_of.
  assert (Hrows : Forall no_escape
                    (if (length ascii_lines =? 9)%nat
                     then removelast ascii_lines else ascii_lines))
    by (destruct (_ =? _)%nat; auto using Forall_removelast).
  destruct flip; [now apply Forall_rev | exact Hrows].
Qed.

(** X6: with [colorize] off the rendering holds no escape character,
    whatever the palette, the unicode flag and the flip, as long as the
    snapshot lines hold none. *)
Theorem plain_render_no_escape pal use_unicode flip ascii_lines out :
  Forall no_escape ascii_lines ->
  render_board pal use_unicode false flip ascii_lines = Ok out ->
  has_escape out = false.
Proof.
  intros Hlines. unfold render_board, render_lines.
  destruct (if (length ascii_lines =? 9)%nat
            then list_getitem ascii_lines (-1) else Ok default_labels)
    as [file_labels|] eqn:Elabels; [|discriminate].
  cbn [bind].
  destruct (mapM (render_row pal use_unicode false flip)
              (board_rows_of flip ascii_lines)) as [rows|] eqn:Erows; [|discriminate].
  cbn [bind]. intros [= <-].
  apply no_escape_join; [reflexivity|]. apply Forall_app. split.
  - apply (mapM_Forall _ no_escape no_escape _ _
             (fun raw line => plain_row_no_escape pal use_unicode flip raw line)
             (board_rows_no_escape flip ascii_lines Hlines) Erows).
  - constructor; [|constructor]. destruct flip; [reflexivity|].
    destruct (is_empty (strip file_labels)); [reflexivity|]. cbn [negb].
    destruct (length ascii_lines =? 9)%nat; [|now injection Elabels as <-].
    unfold list_getitem in Elabels.
    destruct (_ <? 0); [discriminate|].
    destruct (nth_error ascii_lines _) eqn:En; [|discriminate].
    injection Elabels as <-. apply nth_error_In in En.
    now apply (proj1 (Forall_forall _ _) Hlines).
Qed.

Lemma plain_render_no_escape_witness :
  has_escape
    (join NL ["8 r n b"; "7  p  p  p  p  p  p  p  p "; default_labels]) = false.
Proof.
  apply (plain_render_no_escape colorama false false
           ["8 r n b"; "7 p p p p p p p p"]).
  - repeat constructor.
  - reflexivity.
Defined.

(** X7: in unicode mode each of the twelve piece codes is shown as a glyph
    that is neither blank nor the code itself, different codes get
    different glyphs, and the empty-square marker is shown as a blank. *)
Theorem unicode_glyphs_distinct :
  (forall p, In p piece_codes ->
     dict_get UNICODE_MAP p = Some (cell_symbol true p)
     /\ cell_symbol true p <> " " /\ cell_symbol true p <> p)
  /\ (forall p q, In p piece_codes -> In q piece_codes ->
        cell_symbol true p = cell_symbol true q -> p = q)
  /\ cell_symbol true "." = " "
  /\ length piece_codes = 12%nat.
Proof.
  split; [|split; [|split; reflexivity]].
  - intros p Hp. cbn in Hp.
    repeat (destruct Hp as [<- | Hp]; [repeat split; discriminate|]).
    destruct Hp.
  - intros p q Hp Hq. cbn in Hp, Hq.
    repeat (destruct Hp as [<- | Hp];
            [repeat (destruct Hq as [<- | Hq];
                     [intros H; (reflexivity || discriminate H)|]);
             destruct Hq|]).
    destruct Hp.
Qed.

(** ** ProtocolReader, continued *)

(** The only pass of the reader that sets the stop signal is the one that
    finds the stream closed; it prints the notice and leaves the state. *)
Lemma read_body_stop pal w w' :
  read_body pal w = Ok w' -> stop_event w = false -> stop_event w' = true ->
  trace w' = (trace w ++ [closed_notice pal])%list /\ state w' = state w.
Proof.
  unfold read_body. destruct (readline (inbound w)) as [line rest].
  destruct (is_empty line); [now intros [= <-]|].
  destruct (String.eqb (rstrip line NLCR) "BOARD").
  { destruct (read_frame 9 rest []) as [board_lines rest'].
    destruct (if ascii_only (state w) then _ else _); cbn [bind];
      [|discriminate].
    intros [= <-]. cbn. congruence. }
  break_ifs; try discriminate; intros [= <-]; cbn; congruence.
Qed.

Lemma read_loop_stopped pal fault fuel w :
  stop_event w = true -> read_loop pal fault fuel w = Some w.
Proof. intros H. destruct fuel; cbn [read_loop]; now rewrite H. Qed.

(** On a stream of non-empty raw lines the pass that finds the stream
    closed is the one that starts with no line left. *)
Lemma read_body_eof pal w w' :
  read_body pal w = Ok w' -> stop_event w = false -> stop_event w' = true ->
  Forall nonempty (inbound w) ->
  inbound w = [] /\ inbound w' = [].
Proof.
  unfold read_body. intros E Hstop Hstop' Hne.
  destruct Hne as [|l rest Hl Hrest]; cbn [readline] in E.
  { cbn [is_empty] in E. now injection E as <-. }
  exfalso. destruct l as [|c l]; [now destruct Hl|]. cbn [is_empty] in E.
  revert E.
  destruct (String.eqb (rstrip (String c l) NLCR) "BOARD").
  { destruct (read_frame 9 rest []) as [board_lines rest'].
    destruct (if ascii_only (state w) then _ else _); cbn [bind];
      [|discriminate].
    intros [= <-]. cbn in Hstop'. congruence. }
  break_ifs; try discriminate; intros [= <-]; cbn in Hstop'; congruence.
Qed.

Lemma read_body_suffix (P : string -> Prop) pal w w' :
  read_body pal w = Ok w' -> Forall P (inbound w) -> Forall P (inbound w').
Proof.
  unfold read_body. intros E Hin.
  destruct Hin as [|l rest Hl Hrest]; cbn [readline] in E.
  { cbn [is_empty] in E. injection E as <-. constructor. }
  revert E. destruct (is_empty l); [now intros [= <-]|].
  destruct (String.eqb (rstrip l NLCR) "BOARD").
  { pose proof (read_frame_suffix P 9 rest [] Hrest) as Hsuf.
    destruct (read_frame 9 rest []) as [board_lines rest'].
    destruct (if ascii_only (state w) then _ else _); cbn [bind];
      [|discriminate].
    now intros [= <-]. }
  break_ifs; try discriminate; now intros [= <-].
Qed.

(** X8: [read_loop], left to itself over a stream of raw lines that ends
    closed by the peer or in a read error, ends within one pass per line
    and one more: every line is consumed, the stop signal is set, and the
    last thing printed is the connection-closed notice when the stream
    ended closed and the read-loop-error report, with the text of the
    exception, when [readline()] raised. *)
Theorem reader_loop_ends pal fault fuel w :
  stop_event w = false ->
  Forall nonempty (inbound w) ->
  (length (inbound w) < fuel)%nat ->
  exists w',
    read_loop pal fault fuel w = Some w'
    /\ stop_event w' = true
    /\ inbound w' = []
    /\ last (trace w') ClearScreen
       = match fault with
         | None => closed_notice pal
         | Some message => read_error_report pal message
         end.
Proof.
  revert w. induction fuel as [|fuel IH]; intros w Hstop Hne Hlen; [lia|].
  cbn [read_loop]. rewrite Hstop.
  assert (Hfault : forall message,
            fault = Some message -> runs_out (inbound w) = true ->
            exists w',
              read_loop pal fault fuel (reader_fault pal message w) = Some w'
              /\ stop_event w' = true /\ inbound w' = []
              /\ last (trace w') ClearScreen = read_error_report pal message).
  { intros message _ _. exists (reader_fault pal message w).
    rewrite read_loop_stopped by reflexivity.
    repeat split. unfold reader_fault, reader_except.
    cbn [trace stop_event]. rewrite Hstop.
    now rewrite app_assoc, last_last. }
  destruct (read_body_total pal w) as (w1 & E & Hprog).
  assert (Estep : reader_step pal w = w1) by (unfold reader_step; now rewrite E).
  assert (Hstep : (fault = None \/ runs_out (inbound w) = false) ->
            exists w',
              read_loop pal fault fuel w1 = Some w'
              /\ stop_event w' = true /\ inbound w' = []
              /\ last (trace w') ClearScreen
                 = match fault with
                   | None => closed_notice pal
                   | Some message => read_error_report pal message
                   end).
  { intros Hcase. destruct (stop_event w1) eqn:Hstop1.
    - destruct (read_body_eof pal w w1 E Hstop Hstop1 Hne) as [Hin Hin1].
      destruct (read_body_stop pal w w1 E Hstop Hstop1) as [Htrace _].
      destruct Hcase as [-> | Hcase];
        [|rewrite Hin in Hcase; discriminate Hcase].
      exists w1. rewrite read_loop_stopped by exact Hstop1.
      repeat split; trivial. now rewrite Htrace, last_last.
    - destruct Hprog as [Hs | Hl]; [congruence|].
      apply IH; [exact Hstop1 | now apply (read_body_suffix _ pal w) | lia]. }
  unfold reader_pass. destruct fault as [message|].
  - destruct (runs_out (inbound w)) eqn:Hout.
    + now apply Hfault.
    + rewrite Estep. apply Hstep. now right.
  - rewrite Estep. apply Hstep. now left.
Qed.

Lemma reader_loop_ends_witness :
  exists w',
    read_loop Dummy (Some "reset") 12
      (connect (wire ["YOURMOVE"; "BOARD"; "8 r n b q k b n r"])) = Some w'
    /\ stop_event w' = true
    /\ inbound w' = []
    /\ last (trace w') ClearScreen = read_error_report Dummy "reset".
Proof.
  apply (reader_loop_ends Dummy (Some "reset") 12
           (connect (wire ["YOURMOVE"; "BOARD"; "8 r n b q k b n r"]))).
  - reflexivity.
  - repeat constructor; discriminate.
  - cbn. lia.
Defined.

(** Running the events one at a time, while the stop signal stays clear. *)
Lemma run_Reader pal evs w :
  stop_event w = false -> stop_event (reader_step pal w) = false ->
  run pal (Reader :: evs) w = run pal evs (reader_step pal w).
Proof.
  intros H H1. unfold run, run_client, boot. cbn [fold_left step session].
  rewrite H. cbn [negb reader_waiting main_waiting read_fault reader_pass].
  now rewrite H1.
Qed.

Lemma run_Typed pal raw evs w :
  stop_event w = false -> stop_event (user_step pal raw w) = false ->
  run pal (Typed raw :: evs) w = run pal evs (user_step pal raw w).
Proof.
  intros H H1. unfold run, run_client, boot. cbn [fold_left step session].
  rewrite H. cbn [negb reader_waiting main_waiting read_fault].
  now rewrite H1.
Qed.

Lemma run_last_Reader pal w :
  stop_event w = false -> run pal [Reader] w = reader_step pal w.
Proof.
  intros H. unfold run, run_client, boot. cbn [fold_left step session].
  now rewrite H.
Qed.

Lemma run_last_Typed pal raw w :
  stop_event w = false -> run pal [Typed raw] w = user_step pal raw w.
Proof.
  intros H. unfold run, run_client, boot. cbn [fold_left step session].
  now rewrite H.
Qed.

Lemma startswith_inv s p : startswith s p = true -> exists t, s = p ++ t.
Proof.
  revert s. induction p as [|a p IH]; intros s H; [now exists s|].
  destruct s as [|b s]; [discriminate H|].
  cbn [startswith] in H. apply andb_true_iff in H as [Hab H].
  apply Ascii.eqb_eq in Hab as ->. destruct (IH s H) as [t ->]. now exists t.
Qed.

(** How one pass of the reader treats a START line. *)
Lemma read_body_start pal w sl rest :
  inbound w = sl :: rest ->
  startswith (rstrip sl NLCR) "START " = true ->
  read_body pal w
  = Ok {| inbound := rest;
          state := {| player_color :=
                        match split (rstrip sl NLCR) with
                        | _ :: c :: _ => Some (upper c)
                        | _ => player_color (state w)
                        end;
                      last_board := last_board (state w);
                      ascii_only := ascii_only (state w) |};
          stop_event := stop_event w;
          trace := trace w ++ [Print2 (tint pal (Fore_CYAN pal) "[match started]")
                                 (rstrip sl NLCR)] |}.
Proof.
  intros Hin Hstart. unfold read_body. rewrite Hin. cbn [readline].
  assert (Hne : is_empty sl = false) by (destruct sl; [discriminate Hstart | reflexivity]).
  rewrite Hne.
  destruct (startswith_inv _ _ Hstart) as [tail Eline].
  set (line := rstrip sl NLCR) in *.
  assert (Hother : String.eqb line "BOARD" = false
                   /\ startswith line "ROOM " = false
                   /\ startswith line "QUEUE " = false
                   /\ startswith line "ROOM_EXPIRED " = false
                   /\ startswith line "CANCELLED " = false)
    by (rewrite Eline; repeat split).
  destruct Hother as (-> & -> & -> & -> & ->). rewrite Hstart.
  destruct (split line) as [|t0 [|c more]]; try reflexivity.
  destruct (Z.leb_spec 2 (Z.of_nat (length (t0 :: c :: more)))) as [_|H];
    [reflexivity | cbn [length] in H; lia].
Qed.

(** X9: a START line followed by a board frame: the notice is printed
    before the board, the second token of the line, uppercased, becomes
    the player colour, and the frame is rendered flipped exactly when
    that colour is BLACK, in whatever case it was sent. *)
Theorem start_then_frame pal w sl marker frame rest t0 c more :
  stop_event w = false ->
  inbound w = sl :: marker :: frame ++ rest ->
  startswith (rstrip sl NLCR) "START " = true ->
  split (rstrip sl NLCR) = t0 :: c :: more ->
  rstrip marker NLCR = "BOARD" ->
  Forall nonempty frame ->
  length frame = 9%nat \/ ((length frame < 9)%nat /\ rest = []) ->
  exists rendered,
    (if ascii_only (state w) then Ok (join NL (unwire frame))
     else render_board pal true true (String.eqb (upper c) "BLACK") (unwire frame))
    = Ok rendered
    /\ run pal [Reader; Reader] w
       = {| inbound := rest;
            state := {| player_color := Some (upper c);
                        last_board := Some rendered;
                        ascii_only := ascii_only (state w) |};
            stop_event := false;
            trace := trace w ++
                     [Print2 (tint pal (Fore_CYAN pal) "[match started]")
                        (rstrip sl NLCR);
                      ClearScreen; Print rendered] |}.
Proof.
  intros Hstop Hin Hstart Hsplit Hmarker Hne Hlen.
  pose proof (read_body_start pal w sl (marker :: frame ++ rest) Hin Hstart) as E1.
  rewrite Hsplit in E1.
  set (w1 := {| inbound := marker :: frame ++ rest;
                state := {| player_color := Some (upper c);
                            last_board := last_board (state w);
                            ascii_only := ascii_only (state w) |};
                stop_event := stop_event w;
                trace := trace w ++ [Print2 (tint pal (Fore_CYAN pal) "[match started]")
                                       (rstrip sl NLCR)] |}) in E1.
  destruct (read_body_board pal w1 marker frame rest eq_refl Hmarker Hne Hlen)
    as (rendered & E & E2).
  exists rendered. split; [exact E|].
  assert (Estep : reader_step pal w = w1) by (unfold reader_step; now rewrite E1).
  rewrite run_Reader by (trivial; now rewrite Estep).
  rewrite Estep, run_last_Reader by exact Hstop.
  unfold reader_step. rewrite E2.
  unfold w1. cbn [trace state player_color ascii_only stop_event].
  now rewrite Hstop, <- app_assoc.
Qed.

Lemma start_then_frame_witness :
  exists rendered,
    render_board Dummy true true true start_position = Ok rendered
    /\ last_board
         (state (run Dummy [Reader; Reader]
                   (connect (wire ("START black bob" :: "BOARD" :: start_position)))))
       = Some rendered.
Proof.
  destruct (start_then_frame Dummy
              (connect (wire ("START black bob" :: "BOARD" :: start_position)))
              ("START black bob" ++ NL) ("BOARD" ++ NL) (wire start_position) []
              "START" "black" ["bob"])
    as (rendered & E & Erun).
  - reflexivity.
  - reflexivity.
  - reflexivity.
  - reflexivity.
  - reflexivity.
  - repeat constructor; discriminate.
  - left. reflexivity.
  - exists rendered. split; [exact E | now rewrite Erun].
Defined.

Lemma sent_app a b : sent (a ++ b) = (sent a ++ sent b)%list.
Proof.
  induction a as [|o a IH]; [reflexivity|].
  destruct o; cbn [app sent]; now rewrite IH.
Qed.

(** X10: the reader writes nothing to the socket and never changes the
    display mode: after any pass the data sent so far and [ascii_only]
    are what they were. *)
Theorem reader_sends_nothing pal w :
  sent (trace (reader_step pal w)) = sent (trace w)
  /\ ascii_only (state (reader_step pal w)) = ascii_only (state w).
Proof.
  unfold reader_step.
  destruct (read_body pal w) as [w'|e] eqn:E.
  2:{ unfold reader_except. cbn [trace state]. rewrite !sent_app.
      destruct (stop_event w); cbn [sent app]; now rewrite app_nil_r. }
  revert E. unfold read_body. destruct (readline (inbound w)) as [line rest].
  destruct (is_empty line).
  { intros [= <-]. cbn [trace state]. rewrite sent_app. cbn [sent].
    now rewrite app_nil_r. }
  destruct (String.eqb (rstrip line NLCR) "BOARD").
  { destruct (read_frame 9 rest []) as [board_lines rest'].
    destruct (if ascii_only (state w) then _ else _); cbn [bind];
      [|discriminate].
    intros [= <-]. cbn [trace state ascii_only].
    rewrite sent_app. cbn [sent]. now rewrite app_nil_r. }
  break_ifs; try discriminate; intros [= <-]; cbn [trace state ascii_only emit];
    rewrite sent_app; cbn [sent]; now rewrite app_nil_r.
Qed.

(** ** Command loop, continued *)

(** X11: the command loop never touches what the reader owns: after any
    input line the inbound stream, the player colour and the last board
    are what they were. *)
Theorem command_loop_keeps_reader_state pal raw w :
  inbound (user_step pal raw w) = inbound w
  /\ player_color (state (user_step pal raw w)) = player_color (state w)
  /\ last_board (state (user_step pal raw w)) = last_board (state w).
Proof.
  unfold user_step.
  destruct (handle_line pal raw w) as [[w' ctl]|e] eqn:E; [|now repeat split].
  destruct (handle_line_keeps pal raw w w' ctl E) as (Hi & Hc & Hb & _).
  destruct ctl; [destruct (stop_event w')|]; now repeat split.
Qed.





Lemma parse_some_nonempty s m : parse_algebraic s = Ok (Some m) -> is_empty m = false.
Proof.
  unfold parse_algebraic.
  destruct (is_coordinate_result (strip s)) as (coord & -> & _).
  destruct (strip s) as [|c t]; [discriminate|].
  cbn [is_empty bind]. destruct coord; [now intros [= <-]|].
  destruct (remove_marks (String c t)) as [|c' u]; [discriminate|].
  destruct (parse_unmarked_result c' u) as (result & -> & Hres).
  intros [= ->].
  now destruct (Hres m eq_refl) as (f1 & r1 & f2 & r2 & -> & _).
Qed.

(** X13: a line that is not a local command, is not sent verbatim (MOVE,
    NAME, FF) and that the normalizer parses is written to the server as
    MOVE followed by the normalized move, and nothing is printed. *)
Theorem parsed_move_sent pal w raw m :
  ~ In (lower (strip raw)) local_commands ->
  sent_verbatim (strip raw) = false ->
  parse_algebraic (strip raw) = Ok (Some m) ->
  handle_line pal raw w
  = Ok (emit w (inbound w) [Send (("MOVE " ++ m) ++ NL)], Continue).
Proof.
  intros Hlocal Hverb Hparse.
  pose proof (parse_some_nonempty _ _ Hparse) as Hm.
  unfold handle_line. unfold sent_verbatim in Hverb.
  destruct (strip raw) as [|c l] eqn:El; [discriminate Hparse|].
  cbn [is_empty]. rewrite <- El in *.
  assert (Hcmd : forall a, In a local_commands ->
                           String.eqb (lower (strip raw)) a = false).
  { intros a. now apply eqb_not_in. }
  rewrite !Hcmd by (cbn; tauto). cbn [orb andb negb].
  rewrite Hverb. cbn [negb]. rewrite Hparse. cbn [bind].
  destruct m; [discriminate Hm | reflexivity].
Qed.

Lemma parsed_move_sent_witness :
  handle_line Dummy "Nb1xc3+" (connect [])
  = Ok (emit (connect []) [] [Send (("MOVE " ++ "b1c3") ++ NL)], Continue).
Proof.
  apply (parsed_move_sent Dummy (connect []) "Nb1xc3+" "b1c3").
  - cbn. intuition discriminate.
  - reflexivity.
  - reflexivity.
Defined.

Lemma first_char_mark c l : remove_marks (String c l) = "" -> char_in c marks = true.
Proof.
  intros H. destruct (char_in c marks) eqn:E; [reflexivity|].
  rewrite remove_marks_keep in H by exact E. discriminate H.
Qed.

(** Text made of marks only makes [parse_algebraic] raise. *)
Lemma parse_marks_only t :
  t <> "" -> remove_marks t = "" -> strip t = t ->
  parse_algebraic t = Raise IndexError.
Proof.
  intros Hne Hm Hs. unfold parse_algebraic. rewrite Hs.
  destruct t as [|c l]; [congruence|]. cbn [is_empty].
  pose proof (first_char_mark c l Hm) as Hc.
  assert (Hfile : char_in c files = false).
  { apply char_in_In in Hc. cbn in Hc. intuition (subst; reflexivity). }
  assert (Hcoord : is_coordinate (String c l) = Ok false).
  { destruct l as [|b [|d [|e u]]]; try reflexivity.
    now rewrite is_coordinate_4, Hfile. }
  now rewrite Hcoord, Hm.
Qed.

(** X14: an input line that is not blank and holds nothing besides
    capture, check, mate and promotion marks (x, +, #, =Q and the like)
    ends the session: [parse_algebraic] raises [IndexError], no handler of
    the command loop catches it, and only the [finally] block runs. *)
Theorem marks_only_input_ends_session pal w raw :
  stop_event w = false ->
  strip raw <> "" -> remove_marks (strip raw) = "" ->
  user_step pal raw w = shutdown w.
Proof.
  intros Hstop Hne Hm.
  pose proof (parse_marks_only (strip raw) Hne Hm (strip_idem raw)) as Hparse.
  unfold user_step, handle_line.
  destruct (strip raw) as [|c l] eqn:El; [congruence|].
  pose proof (first_char_mark c l Hm) as Hc.
  apply char_in_In in Hc. cbn in Hc.
  assert (Hguards :
            (String.eqb (lower (String c l)) "quit"
             || String.eqb (lower (String c l)) "exit") = false
            /\ (String.eqb (lower (String c l)) "ff"
                || String.eqb (lower (String c l)) "forfeit") = false
            /\ String.eqb (lower (String c l)) "ascii" = false
            /\ String.eqb (lower (String c l)) "unicode" = false
            /\ String.eqb (lower (String c l)) "redraw" = false
            /\ (startswith (upper (String c l)) "MOVE "
                || startswith (upper (String c l)) "NAME "
                || String.eqb (upper (String c l)) "FF") = false).
  { destruct Hc as [<- | [<- | [<- | [<- | []]]]]; repeat split. }
  destruct Hguards as (-> & -> & -> & -> & -> & ->).
  cbn [is_empty negb andb]. now rewrite Hparse.
Qed.

Lemma marks_only_input_ends_session_witness :
  user_step Dummy " x+ " (connect []) = shutdown (connect []).
Proof.
  apply (marks_only_input_ends_session Dummy (connect []) " x+ ").
  - reflexivity.
  - discriminate.
  - reflexivity.
Defined.

Lemma rstrip_by_no_escape q s : no_escape s -> no_escape (rstrip_by q s).
Proof.
  unfold no_escape, has_escape. induction s as [|c s IH]; [trivial|].
  cbn [any_char rstrip_by]. intros [Hc Hs]%orb_false_iff.
  destruct (q c && is_empty (rstrip_by q s)); [reflexivity|].
  cbn [any_char]. now rewrite Hc, IH.
Qed.

Lemma unwire_no_escape frame : Forall no_escape frame -> Forall no_escape (unwire frame).
Proof.
  induction 1 as [|l frame Hl _ IH]; [constructor|].
  cbn [unwire map]. constructor; [now apply rstrip_by_no_escape | exact IH].
Qed.

(** X15: in ascii mode a board frame is stored and printed as the raw
    lines joined by newlines, without their line terminators: it holds no
    escape character when the server's lines hold none, and a redraw
    prints the same text again, or the no-board notice when that text is
    empty. *)
Theorem ascii_frame_is_raw pal w marker frame rest :
  stop_event w = false ->
  ascii_only (state w) = true ->
  inbound w = marker :: frame ++ rest ->
  rstrip marker NLCR = "BOARD" ->
  Forall nonempty frame ->
  Forall no_escape frame ->
  length frame = 9%nat \/ ((length frame < 9)%nat /\ rest = []) ->
  let board := join NL (unwire frame) in
  has_escape board = false
  /\ run pal [Reader; Typed "redraw"] w
     = {| inbound := rest;
          state := {| player_color := player_color (state w);
                      last_board := Some board;
                      ascii_only := true |};
          stop_event := false;
          trace := trace w ++
                   [ClearScreen; Print board;
                    Print (if is_empty board then "[no board yet]" else board)] |}.
Proof.
  intros Hstop Hascii Hin Hmarker Hne Hesc Hlen board. split.
  { apply no_escape_join; [reflexivity | now apply unwire_no_escape]. }
  destruct (read_body_board pal w marker frame rest Hin Hmarker Hne Hlen)
    as (rendered & E & Ebody).
  rewrite Hascii in E. injection E as <-. fold board in Ebody.
  assert (Estep : stop_event (reader_step pal w) = false)
    by (unfold reader_step; now rewrite Ebody).
  rewrite run_Reader, run_last_Typed by trivial.
  unfold reader_step. rewrite Ebody. unfold user_step.
  match goal with
  | |- context [handle_line pal "redraw" ?w1] =>
      change (handle_line pal "redraw" w1)
        with (Ok (emit w1 (inbound w1)
                    [if has_board (state w1) then Print (board_text (state w1))
                     else Print "[no board yet]"], Continue))
  end.
  unfold emit, has_board, board_text.
  cbn [state last_board inbound stop_event trace].
  rewrite Hstop, Hascii, <- app_assoc. cbn [app].
  now destruct (is_empty board).
Qed.

Lemma ascii_frame_is_raw_witness :
  has_escape (join NL (unwire (wire start_position))) = false.
Proof.
  destruct (ascii_frame_is_raw Dummy
              {| inbound := wire ("BOARD" :: start_position);
                 state := {| player_color := None; last_board := None;
                             ascii_only := true |};
                 stop_event := false; trace := [] |}
              ("BOARD" ++ NL) (wire start_position) []) as [E _].
  - reflexivity.
  - reflexivity.
  - reflexivity.
  - reflexivity.
  - repeat constructor; discriminate.
  - repeat constructor.
  - left. reflexivity.
  - exact E.
Defined.

Lemma lower_char_inv c d :
  lower_char c = d -> is_lower_char d = true -> c = d \/ c = upper_char d.
Proof.
  intros <-.
  destruct c as [[] [] [] [] [] [] [] []]; vm_compute; intros H;
    (discriminate H || auto).
Qed.

Lemma upper_lower_char c : upper_char (lower_char c) = upper_char c.
Proof. destruct c as [[] [] [] [] [] [] [] []]; reflexivity. Qed.

Lemma upper_lower s : upper (lower s) = upper s.
Proof.
  induction s as [|c s IH]; [reflexivity|].
  unfold upper, lower in *. cbn [map_chars]. now rewrite upper_lower_char, IH.
Qed.

Lemma forfeit_unparseable line : lower line = "forfeit" -> parse_algebraic line = Ok None.
Proof.
  unfold lower.
  destruct line as [|c1 [|c2 [|c3 [|c4 [|c5 [|c6 [|c7 [|c8 l]]]]]]]];
    cbn [map_chars]; intros H; try discriminate H.
  injection H as H1 H2 H3 H4 H5 H6 H7.
  apply lower_char_inv in H1, H2, H3, H4, H5, H6, H7; try reflexivity.
  destruct H1 as [-> | ->], H2 as [-> | ->], H3 as [-> | ->], H4 as [-> | ->],
           H5 as [-> | ->], H6 as [-> | ->], H7 as [-> | ->];
    vm_compute; reflexivity.
Qed.

(** X16: [ff] and [forfeit], in any case and with surrounding blanks, write
    FF to the server; [forfeit], unlike [ff], is first given to the
    normalizer, which cannot parse it, and the move hint is printed
    before FF is sent. *)
Theorem forfeit_alias pal w raw :
  lower (strip raw) = "ff" \/ lower (strip raw) = "forfeit" ->
  handle_line pal raw w
  = Ok (emit w (inbound w)
          ((if String.eqb (lower (strip raw)) "forfeit"
            then [Print (tint pal (Fore_YELLOW pal) hint)] else [])
           ++ [Send ("FF" ++ NL)]),
        Continue).
Proof.
  intros H. unfold handle_line.
  assert (Hne : is_empty (strip raw) = false)
    by (destruct (strip raw); [destruct H; discriminate | reflexivity]).
  rewrite Hne.
  pose proof (upper_lower (strip raw)) as Hup.
  destruct H as [E | E]; rewrite E in *; cbn in Hup; rewrite <- Hup.
  - reflexivity.
  - cbn [String.eqb Ascii.eqb Bool.eqb orb andb negb startswith].
    rewrite (forfeit_unparseable _ E). cbn [bind].
    unfold looks_like_move. rewrite E. reflexivity.
Qed.

Lemma forfeit_alias_witness :
  handle_line Dummy " ForFeit " (connect [])
  = Ok (emit (connect []) []
          [Print (tint Dummy (Fore_YELLOW Dummy) hint); Send ("FF" ++ NL)],
        Continue).
Proof.
  apply (forfeit_alias Dummy (connect []) " ForFeit "). right. reflexivity.
Defined.

Lemma remove_char_absent c s : any_char (Ascii.eqb c) (remove_char c s) = false.
Proof.
  induction s as [|d s IH]; [reflexivity|]. cbn [remove_char].
  destruct (Ascii.eqb d c) eqn:E; [exact IH|].
  cbn [any_char]. now rewrite Ascii.eqb_sym, E, IH.
Qed.

(** X17: the [ascii] command, in any case, switches the display mode on,
    sends nothing, and, when a board is stored, prints it with every
    escape character removed; the stored board itself is left as it is. *)
Theorem ascii_switch_strips_escapes pal w raw :
  stop_event w = false ->
  lower (strip raw) = "ascii" ->
  has_board (state w) = true ->
  user_step pal raw w
  = {| inbound := inbound w;
       state := {| player_color := player_color (state w);
                   last_board := last_board (state w);
                   ascii_only := true |};
       stop_event := false;
       trace := trace w ++
                [Print (tint pal (Fore_YELLOW pal) "[display] switched to plain ASCII");
                 Print (remove_char ESC (board_text (state w)))] |}
  /\ has_escape (remove_char ESC (board_text (state w))) = false.
Proof.
  intros Hstop E Hb. split; [|apply remove_char_absent].
  unfold user_step, handle_line.
  assert (Hne : is_empty (strip raw) = false)
    by (destruct (strip raw); [discriminate E | reflexivity]).
  rewrite Hne, E, Hb.
  cbn [String.eqb Ascii.eqb Bool.eqb orb andb negb].
  unfold set_ascii_only. now rewrite Hstop.
Qed.

Lemma ascii_switch_strips_escapes_witness :
  has_escape (remove_char ESC (board_text (state (reader_step colorama
                (connect (wire ("BOARD" :: start_position))))))) = false.
Proof.
  destruct (ascii_switch_strips_escapes colorama
              (reader_step colorama (connect (wire ("BOARD" :: start_position))))
              " ASCII ") as [_ E].
  - reflexivity.
  - reflexivity.
  - reflexivity.
  - exact E.
Defined.

(** ** Start of [main] *)

Example startup_examples :
  opening (startup Dummy None " ann " "" "") = ["NAME ann" ++ NL; "FIND" ++ NL]
  /\ opening (startup Dummy None "" "2" " k1 ") = ["NAME Player" ++ NL; "CREATE k1" ++ NL]
  /\ opening (startup Dummy None "bob" " 3" "k1") = ["NAME bob" ++ NL; "JOIN k1" ++ NL]
  /\ opening (startup Dummy None "bob" "4" "") = ["NAME bob" ++ NL; "COMPUTER" ++ NL]
  /\ opening (startup Dummy None "bob" "9" "") = ["NAME bob" ++ NL; "FIND" ++ NL].
Proof. repeat split. Qed.

Lemma strip_not_blank s : is_empty (strip s) = false -> strip s <> "".
Proof. now destruct (strip s). Qed.

Ltac opening_facts :=
  split; [reflexivity|]; split; [reflexivity|];
  split; [assumption|]; split; [assumption|].

(** X18: whenever the client gets as far as the command loop it has
    written exactly two lines: NAME with a name that is neither blank nor
    padded (Player when none was typed), then one of FIND, COMPUTER,
    CREATE, CREATE key and JOIN key, the key being neither blank nor
    padded. *)
Theorem opening_commands_well_formed pal name_in mode_in key_in console written :
  startup pal None name_in mode_in key_in = Running console written ->
  exists name cmd,
    written = ["NAME " ++ name ++ NL; cmd ++ NL]
    /\ name = (if is_empty (strip name_in) then "Player" else strip name_in)
    /\ name <> "" /\ trimmed name
    /\ (cmd = "FIND" \/ cmd = "COMPUTER" \/ cmd = "CREATE"
        \/ exists key, key = strip key_in /\ key <> "" /\ trimmed key
                       /\ (cmd = "CREATE " ++ key \/ cmd = "JOIN " ++ key)).
Proof.
  unfold startup.
  set (name := if is_empty (strip name_in) then "Player" else strip name_in).
  assert (Hname : name <> "" /\ trimmed name).
  { unfold name, trimmed. destruct (is_empty (strip name_in)) eqn:E.
    - split; [discriminate | reflexivity].
    - split; [now apply strip_not_blank | apply strip_idem]. }
  destruct Hname as [Hne Htrim].
  assert (Hkey : is_empty (strip key_in) = false ->
                 exists key, key = strip key_in /\ key <> "" /\ trimmed key
                             /\ ("CREATE " ++ strip key_in = "CREATE " ++ key
                                 /\ "JOIN " ++ strip key_in = "JOIN " ++ key)).
  { intros Ek. exists (strip key_in).
    repeat split; [now apply strip_not_blank | apply strip_idem]. }
  destruct (String.eqb _ "2").
  { intros [= _ <-]. exists name. unfold mode_command. cbn [truthy text_of].
    destruct (is_empty (strip key_in)) eqn:Ek; cbn [negb is_empty String.eqb].
    - exists "CREATE". opening_facts. auto.
    - rewrite Ek. cbn [negb].
      destruct (String.eqb (strip key_in) "auto").
      + exists "CREATE". opening_facts. auto.
      + exists ("CREATE " ++ strip key_in). opening_facts.
        do 3 right. destruct (Hkey eq_refl) as (key & ? & ? & ? & ? & ?).
        exists key. auto. }
  destruct (String.eqb _ "3").
  { destruct (is_empty (strip key_in)) eqn:Ek; [discriminate|].
    intros [= _ <-]. exists name, ("JOIN " ++ strip key_in).
    unfold mode_command. cbn [truthy text_of]. rewrite Ek. cbn [negb].
    opening_facts.
    do 3 right. destruct (Hkey eq_refl) as (key & ? & ? & ? & ? & ?).
    exists key. auto. }
  destruct (String.eqb _ "4");
    intros [= _ <-]; exists name; [exists "COMPUTER" | exists "FIND"];
    opening_facts; auto.
Qed.

Lemma opening_commands_well_formed_witness :
  exists name cmd,
    opening (startup Dummy None " ann " "3" " k1 ") = ["NAME " ++ name ++ NL; cmd ++ NL]
    /\ name = "ann".
Proof.
  destruct (opening_commands_well_formed Dummy " ann " "3" " k1 "
              match startup Dummy None " ann " "3" " k1 " with
              | Running console _ => console
              | Exited _ console => console
              end
              (opening (startup Dummy None " ann " "3" " k1 ")) eq_refl)
    as (name & cmd & E & En & _).
  exists name, cmd. split; [exact E | exact En].
Defined.

(** X19: in mode 2 the room key auto cannot be chosen: typing auto sends
    the bare CREATE, exactly as typing no key does. *)
Theorem auto_key_is_no_key pal name_in mode_in key_in :
  strip mode_in = "2" ->
  strip key_in = "auto" \/ strip key_in = "" ->
  exists name,
    opening (startup pal None name_in mode_in key_in)
    = ["NAME " ++ name ++ NL; "CREATE" ++ NL].
Proof.
  intros Hmode Hkey. unfold startup. rewrite Hmode. cbn [is_empty String.eqb Ascii.eqb Bool.eqb andb].
  eexists. cbn [opening]. unfold mode_command.
  destruct Hkey as [-> | ->]; reflexivity.
Qed.

Lemma auto_key_is_no_key_witness :
  exists name,
    opening (startup Dummy None "ann" "2" " auto ") = ["NAME " ++ name ++ NL; "CREATE" ++ NL].
Proof.
  apply (auto_key_is_no_key Dummy "ann" "2" " auto "); [reflexivity | left; reflexivity].
Defined.


